(** * Checkout-flow experiment analysis: statistics framework and power grid

    A shallow embedding of [src/analysis/stats_framework.py] and of the
    grid runner of [src/analysis/sensitivity.py].

    Number model.
    - [guardrail_eval] only subtracts, divides, multiplies and compares
      Python floats, so it is embedded over Rocq's primitive binary64
      floats and evaluates bit for bit like the source.
    - [two_proportion_test], [proportion_ci] and [_inverse_normal_cdf] call
      [math.sqrt], [math.log] and [math.erf]; they are embedded over the
      real numbers (floats read as the reals they denote, no rounding,
      no underflow), with [erf] taken through the interface
      [ErrorFunction]. The detection rate of the grid, an integer
      quotient, is a real as well. What is proved on this reading is
      stated of a call that returns and is of the kind rounding keeps.
    - [Binary64], further down, embeds [two_proportion_test] and
      [proportion_ci] a second time over binary64 floats, with [math.erf]
      and [math.log] as parameters; it decides when a call returns and
      what it returns at a given input.
    - integer counts are [Z] (Python's unbounded [int]); uplifts, which
      the grid only passes on and sorts, are rationals.

    The grid runner is embedded twice as well: [Sensitivity] gives the
    records as a function of what the collaborators answer, and [Logged]
    adds the calls the run makes and the [OverflowError] of a date beyond
    the range of [datetime]. *)

From Stdlib Require Import ZArith List String Ascii Bool Lia.
From Stdlib Require Import Floats.
From Stdlib Require Import Reals Lra.
From Stdlib Require Import QArith.
From Stdlib Require Import Sorting.Mergesort Sorting.Permutation Sorting.Sorted.
From Stdlib Require Import Orders FinFun.
Import ListNotations.

Set Warnings "-inexact-float".

(** ** Python exceptions and results *)

Inductive exn : Type :=
| ValueError (msg : string)
| IndexError (msg : string)
| OverflowError (msg : string)
| ZeroDivisionError (msg : string).

Inductive result (A : Type) : Type :=
| Ok (a : A)
| Raise (e : exn).

Arguments Ok {A} a.
Arguments Raise {A} e.

Definition raises {A : Type} (r : result A) : bool :=
  match r with Ok _ => false | Raise _ => true end.

(** ** guardrail_eval *)

Module Guardrail.

Local Open Scope string_scope.

(** A value stored in the rule dictionary ([Dict[str, Any]]): the code
    distinguishes [None] from a number. *)
Inductive pyvalue : Type :=
| PyNone
| PyNum (x : float).

(** A [dict] iterated in insertion order. *)
Definition rule_dict : Type := list (string * pyvalue).

Inductive rule_type : Type :=
| drop_pp | drop_pct | increase_pp | increase_ms | increase_pct.

(** The [if]/[elif] chain on [key.startswith(...)] in the loop body. *)
Definition match_key (key : string) : option rule_type :=
  if prefix "max_drop_pp" key then Some drop_pp
  else if prefix "max_drop_pct" key then Some drop_pct
  else if prefix "max_increase_pp" key then Some increase_pp
  else if prefix "max_increase_ms" key then Some increase_ms
  else if prefix "max_increase_pct" key then Some increase_pct
  else None.

(** One iteration of [for key, value in rule.items()]: a matching key
    overwrites both [rule_type] and [threshold]. *)
Definition scan_step (st : option rule_type * pyvalue) (kv : string * pyvalue)
  : option rule_type * pyvalue :=
  match match_key (fst kv) with
  | Some k => (Some k, snd kv)
  | None => st
  end.

(** The loop, from [rule_type = None; threshold = None]. *)
Definition scan (rule : rule_dict) : option rule_type * pyvalue :=
  fold_left scan_step rule (None, PyNone).

(** An f-string, kept as its pieces: literal text, a float rendered with
    [:.nf], and a value rendered with its default format. *)
Inductive piece : Type :=
| Lit (s : string)
| Fixed (digits : nat) (x : float)
| Plain (x : float).

Definition message : Type := list piece.

Definition tag (passed : bool) : piece :=
  Lit (if passed then "PASS" else "FAIL").

Definition no_drop_msg : message :=
  [Lit "Cannot compute percent drop with baseline = 0"].

Definition no_increase_msg : message :=
  [Lit "Cannot compute percent increase with baseline = 0"].

Local Open Scope float_scope.

Definition guardrail_eval (baseline_value treatment_value : float)
    (rule : rule_dict) : result (bool * message) :=
  match rule with
  | [] => Raise (ValueError "Rule must be a non-empty dictionary")
  | _ :: _ =>
    match scan rule with
    | (None, _) | (_, PyNone) => Raise (ValueError "Unrecognized rule format")
    | (Some drop_pp, PyNum threshold) =>
        let delta := baseline_value - treatment_value in
        let passed := delta <=? threshold in
        Ok (passed,
            [Lit "Drop of "; Fixed 3 delta; Lit "pp (baseline: ";
             Fixed 3 baseline_value; Lit ", treatment: ";
             Fixed 3 treatment_value; Lit "). Threshold: ";
             Plain threshold; Lit "pp. "; tag passed])
    | (Some drop_pct, PyNum threshold) =>
        if baseline_value =? 0 then Ok (false, no_drop_msg)
        else
          let delta_pct :=
            ((baseline_value - treatment_value) / baseline_value) * 100 in
          let passed := delta_pct <=? threshold in
          Ok (passed,
              [Lit "Drop of "; Fixed 2 delta_pct; Lit "% (baseline: ";
               Fixed 2 baseline_value; Lit ", treatment: ";
               Fixed 2 treatment_value; Lit "). Threshold: ";
               Plain threshold; Lit "%. "; tag passed])
    | (Some increase_pp, PyNum threshold) =>
        let delta := treatment_value - baseline_value in
        let passed := delta <=? threshold in
        Ok (passed,
            [Lit "Increase of "; Fixed 3 delta; Lit "pp (baseline: ";
             Fixed 3 baseline_value; Lit ", treatment: ";
             Fixed 3 treatment_value; Lit "). Threshold: ";
             Plain threshold; Lit "pp. "; tag passed])
    | (Some increase_ms, PyNum threshold) =>
        let delta := treatment_value - baseline_value in
        let passed := delta <=? threshold in
        Ok (passed,
            [Lit "Increase of "; Fixed 1 delta; Lit "ms (baseline: ";
             Fixed 1 baseline_value; Lit "ms, treatment: ";
             Fixed 1 treatment_value; Lit "ms). Threshold: ";
             Plain threshold; Lit "ms. "; tag passed])
    | (Some increase_pct, PyNum threshold) =>
        if baseline_value =? 0 then Ok (false, no_increase_msg)
        else
          let delta_pct :=
            ((treatment_value - baseline_value) / baseline_value) * 100 in
          let passed := delta_pct <=? threshold in
          Ok (passed,
              [Lit "Increase of "; Fixed 2 delta_pct; Lit "% (baseline: ";
               Fixed 2 baseline_value; Lit ", treatment: ";
               Fixed 2 treatment_value; Lit "). Threshold: ";
               Plain threshold; Lit "%. "; tag passed])
    end
  end.

(** The verdict alone. *)
Definition passed_of (r : result (bool * message)) : option bool :=
  match r with Ok (p, _) => Some p | Raise _ => None end.

(** [delta] as the [max_drop_pp] branch computes it. *)
Definition drop_delta (baseline_value treatment_value : float) : float :=
  baseline_value - treatment_value.

End Guardrail.

(** ** Proportion test and confidence interval *)

Module Stats.

Local Open Scope string_scope.
Local Open Scope R_scope.

(** [math.erf], through the properties of the error function that the
    code relies on. *)
Class ErrorFunction : Type := {
  erf : R -> R;
  erf_0 : erf 0 = 0;
  erf_pos : forall x, 0 < x -> 0 < erf x;
  erf_lt_1 : forall x, erf x < 1
}.

Definition Rltb (x y : R) : bool := if Rlt_dec x y then true else false.
Definition Rleb (x y : R) : bool := if Rle_dec x y then true else false.
Definition Reqb (x y : R) : bool := if Req_dec_T x y then true else false.

Definition bind {A B : Type} (r : result A) (k : A -> result B) : result B :=
  match r with Ok a => k a | Raise e => Raise e end.

Notation "x <- r ;; k" := (bind r (fun x => k))
  (at level 61, r at next level, right associativity).

(** The part of [_inverse_normal_cdf] below the [p > 0.5] test. *)
Definition rational_approx (p : R) : R :=
  let c0 := 2.515517 in
  let c1 := 0.802853 in
  let c2 := 0.010328 in
  let d1 := 1.432788 in
  let d2 := 0.189269 in
  let d3 := 0.001308 in
  let t := sqrt (-2 * ln p) in
  let z := t - (c0 + c1 * t + c2 * t * t)
               / (1 + d1 * t + d2 * t * t + d3 * t * t * t) in
  - z.

(** [_inverse_normal_cdf], with the depth of the recursion as fuel:
    [None] when the fuel runs out. *)
Fixpoint inverse_normal_cdf_fuel (fuel : nat) (p : R) : option (result R) :=
  match fuel with
  | O => None
  | S fuel' =>
    if Rleb p 0 || Rleb 1 p then
      Some (Raise (ValueError "Probability must be between 0 and 1 (exclusive)"))
    else if Rltb (Rabs (p - 0.025)) 1e-6 then Some (Ok (-1.96))
    else if Rltb (Rabs (p - 0.005)) 1e-6 then Some (Ok (-2.576))
    else if Rltb 0.5 p then
      match inverse_normal_cdf_fuel fuel' (1 - p) with
      | Some (Ok z) => Some (Ok (- z))
      | other => other
      end
    else Some (Ok (rational_approx p))
  end.

(** The recursive call is on [1 - p < 0.5], which does not recurse again:
    depth two is enough (lemma [inverse_normal_cdf_fuel_enough]). *)
Definition _inverse_normal_cdf (p : R) : result R :=
  match inverse_normal_cdf_fuel 2 p with
  | Some r => r
  | None => Raise (ValueError "recursion depth exceeded")
  end.

(** [1.96 if alpha == 0.05 else abs(_inverse_normal_cdf(alpha / 2))] *)
Definition z_critical (alpha : R) : result R :=
  if Reqb alpha 0.05 then Ok 1.96
  else z <- _inverse_normal_cdf (alpha / 2) ;; Ok (Rabs z).

(** Python's [float] with [float("inf")]. *)
Inductive efloat : Type :=
| Finite (x : R)
| Infinity.

Module PT.
Record t : Type := {
  p_value : R;
  ci_low : R;
  ci_high : R;
  effect_abs : R;
  effect_rel : efloat
}.
End PT.

Module CI.
Record t : Type := {
  rate : R;
  ci_low : R;
  ci_high : R
}.
End CI.

Section WithErf.
Context {EF : ErrorFunction}.

Definition two_proportion_test
    (successes_a total_a successes_b total_b : Z) (alpha : R)
  : result PT.t :=
  if ((total_a <=? 0) || (total_b <=? 0))%Z then
    Raise (ValueError "Total observations must be positive")
  else if ((successes_a <? 0) || (successes_b <? 0))%Z then
    Raise (ValueError "Successes cannot be negative")
  else if ((successes_a >? total_a) || (successes_b >? total_b))%Z then
    Raise (ValueError "Successes cannot exceed total observations")
  else if negb (Rltb 0 alpha && Rltb alpha 1) then
    Raise (ValueError "Alpha must be between 0 and 1")
  else
    let p_a := IZR successes_a / IZR total_a in
    let p_b := IZR successes_b / IZR total_b in
    let effect_abs := p_b - p_a in
    let effect_rel :=
      if Rltb 0 p_a then Finite ((p_b - p_a) / p_a) else Infinity in
    let p_pooled :=
      IZR (successes_a + successes_b) / IZR (total_a + total_b) in
    let se_pooled :=
      sqrt (p_pooled * (1 - p_pooled) * (1 / IZR total_a + 1 / IZR total_b)) in
    let z_stat := if Rltb 0 se_pooled then effect_abs / se_pooled else 0 in
    let p_value := 2 * (1 - 0.5 * (1 + erf (Rabs z_stat / sqrt 2))) in
    let se_unpooled :=
      sqrt (p_a * (1 - p_a) / IZR total_a + p_b * (1 - p_b) / IZR total_b) in
    z_crit <- z_critical alpha ;;
    let ci_low := effect_abs - z_crit * se_unpooled in
    let ci_high := effect_abs + z_crit * se_unpooled in
    Ok {| PT.p_value := p_value;
          PT.ci_low := ci_low;
          PT.ci_high := ci_high;
          PT.effect_abs := effect_abs;
          PT.effect_rel := effect_rel |}.

End WithErf.

Definition proportion_ci (successes total : Z) (alpha : R) : result CI.t :=
  if (total <=? 0)%Z then
    Raise (ValueError "Total observations must be positive")
  else if (successes <? 0)%Z then
    Raise (ValueError "Successes cannot be negative")
  else if (successes >? total)%Z then
    Raise (ValueError "Successes cannot exceed total observations")
  else if negb (Rltb 0 alpha && Rltb alpha 1) then
    Raise (ValueError "Alpha must be between 0 and 1")
  else
    let rate := IZR successes / IZR total in
    let se := sqrt (rate * (1 - rate) / IZR total) in
    z_crit <- z_critical alpha ;;
    let ci_low := Rmax 0 (rate - z_crit * se) in
    let ci_high := Rmin 1 (rate + z_crit * se) in
    Ok {| CI.rate := rate; CI.ci_low := ci_low; CI.ci_high := ci_high |}.

(** The input condition of both functions: what the validation accepts. *)
Definition valid_arm (successes total : Z) : Prop :=
  (0 <= successes <= total)%Z /\ (0 < total)%Z.

Definition valid_alpha (alpha : R) : Prop := 0 < alpha < 1.

End Stats.

(** ** Sensitivity grid *)

Lemma Zleb_total (x y : Z) : Z.leb x y = true \/ Z.leb y x = true.
Proof.
  destruct (Z.leb_spec x y); [now left | right]. apply Z.leb_le. lia.
Qed.

Lemma Qleb_total (x y : Q) : Qle_bool x y = true \/ Qle_bool y x = true.
Proof.
  rewrite !Qle_bool_iff.
  destruct (Qlt_le_dec x y) as [H | H]; [left; now apply Qlt_le_weak | now right].
Qed.

(** Python's [sorted] on integers and on numbers: a sort by [<=]. *)
Module ZOrder <: TotalLeBool.
Definition t := Z.
Definition leb := Z.leb.
Definition leb_total := Zleb_total.
End ZOrder.

Module QOrder <: TotalLeBool.
Definition t := Q.
Definition leb := Qle_bool.
Definition leb_total := Qleb_total.
End QOrder.

Module ZSort := Sort ZOrder.
Module QSort := Sort QOrder.

Module Sensitivity.

Import Stats.
Local Open Scope string_scope.

(** *** create_metadata *)

Record metadata : Type := {
  generated_at_utc : string;
  meta_alpha : R;
  users_per_day : list Z;
  uplifts : list Q;
  grid_size : Z;
  meta_repeats : Z;
  total_simulations : Z;
  power_target : option R;
  git_commit : option string
}.

Definition len {A : Type} (l : list A) : Z := Z.of_nat (List.length l).

(** [utcnow] is the clock reading [datetime.utcnow().isoformat()] and
    [git_hash] what [get_git_commit_hash()] returns; both come from the
    environment. [sorted] on integers and on numbers is a sort by [<=]. *)
Definition create_metadata (utcnow : string) (git_hash : option string)
    (users_list : list Z) (uplifts_list : list Q) (repeats : Z) (alpha : R)
    (power_target : option R) : metadata :=
  {| generated_at_utc := utcnow ++ "Z";
     meta_alpha := alpha;
     users_per_day := ZSort.sort users_list;
     uplifts := QSort.sort uplifts_list;
     grid_size := len users_list * len uplifts_list;
     meta_repeats := repeats;
     total_simulations := len users_list * len uplifts_list * repeats;
     power_target := power_target;
     git_commit :=
       match git_hash with
       | Some h => if String.eqb h "" then None else Some h
       | None => None
       end |}.

(** The number of distinct values of a list. *)
Definition distinct_users (l : list Z) : Z := len (nodup Z.eq_dec l).

(** *** run_ccr_test *)

(** A row of the variant query: [(variant, adders, orderers)]. *)
Definition row : Type := (string * Z * Z)%type.

(** What connecting to the warehouse and running the query gives: an
    exception, or the fetched rows. *)
Inductive query_outcome : Type :=
| QueryRaised
| Fetched (rows : list row).

(** [[r for r in result if r[0] == name][0]] *)
Definition first_variant (name : string) (rows : list row) : result row :=
  match filter (fun r : row => String.eqb (fst (fst r)) name) rows with
  | r :: _ => Ok r
  | [] => Raise (IndexError "list index out of range")
  end.

Section WithErf.
Context {EF : ErrorFunction}.

(** The body of the [try] block. *)
Definition ccr_try (q : query_outcome) (alpha : R) : result (bool * R) :=
  match q with
  | QueryRaised => Raise (ValueError "warehouse query failed")
  | Fetched rows =>
    if (List.length rows <? 2)%nat then Ok (false, 1%R)
    else
      control_data <- first_variant "control" rows ;;
      treatment_data <- first_variant "treatment" rows ;;
      let control_adders := snd (fst control_data) in
      let control_orders := snd control_data in
      let treatment_adders := snd (fst treatment_data) in
      let treatment_orders := snd treatment_data in
      test_result <- two_proportion_test control_orders control_adders
                       treatment_orders treatment_adders alpha ;;
      let p_value := PT.p_value test_result in
      let detected := Rltb p_value alpha in
      Ok (detected, p_value)
  end.

(** [try: ... except Exception: return False, 1.0] *)
Definition run_ccr_test (q : query_outcome) (alpha : R) : bool * R :=
  match ccr_try q alpha with
  | Ok r => r
  | Raise _ => (false, 1%R)
  end.

(** The trial reached the statistical test and the test returned. *)
Definition test_completed (q : query_outcome) (alpha : R) : option PT.t :=
  match q with
  | QueryRaised => None
  | Fetched rows =>
    if (List.length rows <? 2)%nat then None
    else
      match first_variant "control" rows, first_variant "treatment" rows with
      | Ok c, Ok t =>
        match two_proportion_test (snd c) (snd (fst c)) (snd t) (snd (fst t)) alpha with
        | Ok res => Some res
        | Raise _ => None
        end
      | _, _ => None
      end
  end.

(** *** run_sensitivity_grid *)

(** The collaborators, as the grid runner sees them. Dates are day
    numbers ([base_date + timedelta(days=k)] is [base_date + k], and
    [strftime("%Y-%m-%d")] names the day; the upper limit of [datetime],
    year 9999, is left to [Logged]); the per-run directory [data_<k>] and
    database [warehouse_<k>.duckdb] are named by their number [k]. *)
Variable run_simulation :
  forall (date days users : Z) (uplift : Q) (seed output_dir : Z), bool.
Variable build_warehouse : forall (data_dir db_path : Z), bool.
Variable warehouse_query : forall (db_path date : Z), query_outcome.

(** One call to [run_simulation]'s arguments, kept for the trace. *)
Record trial : Type := {
  trial_run : Z;
  trial_date : Z;
  trial_seed : Z;
  trial_users : Z;
  trial_uplift : Q
}.

Record grid_result : Type := {
  res_users_per_day : Z;
  res_uplift : Q;
  res_repeats : Z;
  res_detections : Z;
  res_detection_rate : R;
  res_alpha : R
}.

(** What the loops carry: [run_count], the [results] list, and the trace
    of the trials started so far. *)
Record grid_state : Type := {
  run_count : Z;
  results : list grid_result;
  trace : list trial
}.

(** How one repeat ends. *)
Inductive trial_end : Type :=
| SimulationFailed
| WarehouseFailed
| Tested (detected : bool) (p_value : R).

(** The body of [for rep in range(repeats)] after [run_count += 1], for
    the run numbered [k]. *)
Definition run_trial (base_date days users : Z) (uplift : Q) (seed : Z)
    (alpha : R) (k : Z) : trial_end :=
  let date_offset := k in
  let sim_date := (base_date + date_offset)%Z in
  let data_dir := k in
  let db_path := k in
  let run_seed := (seed + k)%Z in
  if negb (run_simulation sim_date days users uplift run_seed data_dir)
  then SimulationFailed
  else if negb (build_warehouse data_dir db_path) then WarehouseFailed
  else
    let '(detected, p_value) :=
      run_ccr_test (warehouse_query db_path sim_date) alpha in
    Tested detected p_value.

(** One repeat: state is [(run_count, detections, trace)]. *)
Definition repeat_step (base_date days users : Z) (uplift : Q) (seed : Z)
    (alpha : R) (st : Z * Z * list trial) (rep : nat) : Z * Z * list trial :=
  let '(run_count, detections, tr) := st in
  let run_count := (run_count + 1)%Z in
  let tr := (tr ++ [{| trial_run := run_count;
                       trial_date := (base_date + run_count)%Z;
                       trial_seed := (seed + run_count)%Z;
                       trial_users := users;
                       trial_uplift := uplift |}])%list in
  match run_trial base_date days users uplift seed alpha run_count with
  | Tested true _ => (run_count, (detections + 1)%Z, tr)
  | _ => (run_count, detections, tr)
  end.

(** One grid point: the inner loop, the rate and the append. *)
Definition point_step (base_date days repeats seed : Z) (alpha : R)
    (st : grid_state) (point : Z * Q) : grid_state :=
  let '(users, uplift) := point in
  let '(run_count', detections, tr) :=
    fold_left (repeat_step base_date days users uplift seed alpha)
              (seq 0 (Z.to_nat repeats))
              (run_count st, 0%Z, trace st) in
  let detection_rate :=
    if (repeats >? 0)%Z then (IZR detections / IZR repeats)%R else 0%R in
  {| run_count := run_count';
     results := (results st ++
       [{| res_users_per_day := users;
           res_uplift := uplift;
           res_repeats := repeats;
           res_detections := detections;
           res_detection_rate := detection_rate;
           res_alpha := alpha |}])%list;
     trace := tr |}.

Definition run_sensitivity_grid_state (base_date days : Z)
    (users_list : list Z) (uplifts_list : list Q) (repeats seed : Z)
    (alpha : R) : grid_state :=
  let grid_points := list_prod users_list uplifts_list in
  fold_left (point_step base_date days repeats seed alpha) grid_points
            {| run_count := 0; results := []; trace := [] |}.

Definition run_sensitivity_grid (base_date days : Z)
    (users_list : list Z) (uplifts_list : list Q) (repeats seed : Z)
    (alpha : R) : list grid_result :=
  results (run_sensitivity_grid_state base_date days users_list uplifts_list
             repeats seed alpha).

(** The run numbers of the grid point of index [i]: [i*repeats + 1] to
    [(i+1)*repeats]. *)
Definition point_runs (repeats : Z) (i : nat) : list Z :=
  map (fun j => (Z.of_nat i * repeats + Z.of_nat j + 1)%Z)
      (seq 0 (Z.to_nat repeats)).

(** The trial completed the test with [p_value < alpha]. *)
Definition trial_detected (base_date days users : Z) (uplift : Q)
    (seed : Z) (alpha : R) (k : Z) : bool :=
  run_simulation (base_date + k)%Z days users uplift (seed + k)%Z k
  && build_warehouse k k
  && match test_completed (warehouse_query k (base_date + k)%Z) alpha with
     | Some res => Rltb (PT.p_value res) alpha
     | None => false
     end.

End WithErf.

End Sensitivity.

(** * Properties *)

(** ** guardrail_eval *)

Section GuardrailFacts.

Import Guardrail.
Local Open Scope string_scope.
Local Open Scope float_scope.

(** No key of the mapping starts with a recognized prefix. *)
Definition no_match (rule : rule_dict) : Prop :=
  Forall (fun kv => match_key (fst kv) = None) rule.

(** [k] is the last matching key of [rule], bound to [v]. *)
Definition last_match (rule : rule_dict) (k : string) (v : pyvalue)
    (kind : rule_type) : Prop :=
  exists l1 l2, rule = (l1 ++ (k, v) :: l2)%list
                /\ match_key k = Some kind /\ no_match l2.

Lemma scan_step_no_match (l : rule_dict) (st : option rule_type * pyvalue) :
  no_match l -> fold_left scan_step l st = st.
Proof.
  intros H. revert st. induction H as [| kv l Hkv _ IH]; intros st; simpl.
  - reflexivity.
  - unfold scan_step at 2. rewrite Hkv. apply IH.
Qed.

Lemma scan_last_match (rule : rule_dict) k v kind :
  last_match rule k v kind -> scan rule = (Some kind, v).
Proof.
  intros (l1 & l2 & -> & Hk & Hl2). unfold scan.
  rewrite fold_left_app. simpl.
  unfold scan_step at 2. simpl. rewrite Hk.
  now apply scan_step_no_match.
Qed.

Lemma scan_cases (rule : rule_dict) :
  (no_match rule /\ scan rule = (None, PyNone))
  \/ exists k v kind, last_match rule k v kind.
Proof.
  induction rule as [| [k v] l IH] using rev_ind.
  - left. split; [constructor | reflexivity].
  - destruct (match_key k) as [kind |] eqn:Hk.
    + right. exists k, v, kind, l, []. repeat split; [assumption | constructor].
    + destruct IH as [[Hl Hs] | (k' & v' & kind' & l1 & l2 & -> & Hk' & Hl2)].
      * left. split.
        -- apply Forall_app. split; [assumption |]. constructor; [assumption | constructor].
        -- unfold scan in *. rewrite fold_left_app. simpl.
           unfold scan_step at 1. simpl. rewrite Hk. exact Hs.
      * right. exists k', v', kind', l1, (l2 ++ [(k, v)])%list.
        repeat split.
        -- now rewrite <- app_assoc.
        -- assumption.
        -- apply Forall_app. split; [assumption |]. constructor; [assumption | constructor].
Qed.

Lemma last_match_not_no_match rule k v kind :
  last_match rule k v kind -> ~ no_match rule.
Proof.
  intros (l1 & l2 & -> & Hk & _) H.
  apply Forall_app in H. destruct H as [_ H]. inversion H as [| ? ? Hkv _]; subst.
  simpl in Hkv. congruence.
Qed.

Lemma eqb_true_leb (x y : float) : (x =? y) = true -> (x <=? y) = true.
Proof.
  rewrite FloatAxioms.eqb_spec, FloatAxioms.leb_spec. unfold SFeqb, SFleb.
  destruct (SFcompare (Prim2SF x) (Prim2SF y)) as [[] |]; congruence.
Qed.

Definition unrecognized : result (bool * message) :=
  Raise (ValueError "Unrecognized rule format").

Lemma guardrail_eval_raise_iff b t (rule : rule_dict) :
  rule <> [] ->
  (guardrail_eval b t rule = unrecognized
   <-> no_match rule \/ exists k kind, last_match rule k PyNone kind).
Proof.
  intros Hne. destruct rule as [| kv0 rule0]; [congruence |].
  split.
  - intros Hr.
    destruct (scan_cases (kv0 :: rule0)) as [[Hn _] | (k & v & kind & Hl)].
    + now left.
    + right. exists k, kind. pose proof (scan_last_match _ _ _ _ Hl) as Hs.
      destruct v as [| x]; [assumption |]. exfalso.
      unfold guardrail_eval in Hr. rewrite Hs in Hr.
      destruct kind; try discriminate Hr;
        destruct (b =? 0); discriminate Hr.
  - intros [Hn | (k & kind & Hl)].
    + destruct (scan_cases (kv0 :: rule0)) as [[_ Hs] | (k & v & kind & Hl)].
      * unfold guardrail_eval. rewrite Hs. reflexivity.
      * exfalso. eapply last_match_not_no_match; eauto.
    + unfold guardrail_eval. rewrite (scan_last_match _ _ _ _ Hl).
      destruct kind; reflexivity.
Qed.

(** C4 (amended): the drop_pp bound is inclusive: whenever the computed
    delta [baseline - treatment] equals the threshold, the verdict is
    [passed = true]. For baseline 0.92 and treatment 0.917 the computed
    delta is the float 0.0030000000000000027, which is not the float
    0.003, and under the rule max_drop_pp = 0.003 the verdict is
    [passed = false]. *)
Theorem guardrail_drop_pp_inclusive :
  forall (baseline_value treatment_value threshold : float) (rule : rule_dict),
    scan rule = (Some drop_pp, PyNum threshold) ->
    (drop_delta baseline_value treatment_value =? threshold) = true ->
    passed_of (guardrail_eval baseline_value treatment_value rule) = Some true
    /\ drop_delta 0.92 0.917 = 0.0030000000000000027
    /\ passed_of (guardrail_eval 0.92 0.917 [("max_drop_pp", PyNum 0.003)])
       = Some false.
Proof.
  intros b t thr rule Hs Heq. split; [| split; reflexivity].
  destruct rule as [| kv rule]; [discriminate Hs |].
  unfold guardrail_eval. rewrite Hs. simpl.
  unfold drop_delta in Heq. now rewrite (eqb_true_leb _ _ Heq).
Qed.

Lemma guardrail_drop_pp_inclusive_witness :
  passed_of (guardrail_eval 0.5 0.25 [("max_drop_pp", PyNum 0.25)]) = Some true
  /\ drop_delta 0.92 0.917 = 0.0030000000000000027
  /\ passed_of (guardrail_eval 0.92 0.917 [("max_drop_pp", PyNum 0.003)])
     = Some false.
Proof.
  apply (guardrail_drop_pp_inclusive 0.5 0.25 0.25 [("max_drop_pp", PyNum 0.25)]);
    reflexivity.
Defined.

(** C4, as stated, fails on its own scenario: the computed delta differs
    from the threshold 0.003 and the verdict is [passed = false]. *)
Lemma guardrail_scenario_C_not_passed :
  (drop_delta 0.92 0.917 =? 0.003) = false
  /\ guardrail_eval 0.92 0.917 [("max_drop_pp", PyNum 0.003)]
     = Ok (false,
           [Lit "Drop of "; Fixed 3 0.0030000000000000027;
            Lit "pp (baseline: "; Fixed 3 0.92; Lit ", treatment: ";
            Fixed 3 0.917; Lit "). Threshold: "; Plain 0.003;
            Lit "pp. "; Lit "FAIL"]).
Proof. split; reflexivity. Qed.

(** C5 (amended): the last matching key, in iteration order, gives both
    the rule kind and the threshold; on a non-empty mapping
    [guardrail_eval] raises the unrecognized-rule error exactly when no
    key matches a recognized prefix or the last matching key is bound to
    [None]. *)
Theorem guardrail_rule_resolution :
  forall (rule : rule_dict),
    (forall k v kind, last_match rule k v kind -> scan rule = (Some kind, v))
    /\ (forall b t, rule <> [] ->
          (guardrail_eval b t rule = unrecognized
           <-> no_match rule \/ exists k kind, last_match rule k PyNone kind))
    /\ (forall b t, rule <> [] ->
          raises (guardrail_eval b t rule) = true ->
          guardrail_eval b t rule = unrecognized).
Proof.
  intros rule. split; [| split].
  - intros k v kind. apply scan_last_match.
  - intros b t. apply guardrail_eval_raise_iff.
  - intros b t Hne Hr. destruct rule as [| kv rule]; [congruence |].
    unfold guardrail_eval in *.
    destruct (scan (kv :: rule)) as [[[] |] []]; try reflexivity;
      try discriminate Hr; destruct (b =? 0); discriminate Hr.
Qed.

(** C5, as stated, fails: a mapping whose only key matches a recognized
    prefix but is bound to [None] raises the unrecognized-rule error. *)
Lemma guardrail_none_threshold_raises :
  match_key "max_drop_pp" = Some drop_pp
  /\ ~ no_match [("max_drop_pp", PyNone)]
  /\ guardrail_eval 0.92 0.91 [("max_drop_pp", PyNone)] = unrecognized.
Proof.
  split; [reflexivity |]. split; [| reflexivity].
  intros H. inversion H as [| ? ? Hk _]. discriminate Hk.
Qed.

(** C6: when the baseline compares equal to zero (0.0 or -0.0) and the
    last matching key of the rule is a max_drop_pct or a max_increase_pct
    key bound to a number, [guardrail_eval] returns, for every treatment
    value and every threshold, [passed = false] with the fixed message of
    that rule kind; it does not raise. *)
Theorem guardrail_pct_zero_baseline :
  forall (baseline_value treatment_value threshold : float) (rule : rule_dict)
         (key : string) (kind : rule_type),
    (baseline_value =? 0) = true ->
    kind = drop_pct \/ kind = increase_pct ->
    last_match rule key (PyNum threshold) kind ->
    guardrail_eval baseline_value treatment_value rule
    = Ok (false,
          match kind with
          | increase_pct => no_increase_msg
          | _ => no_drop_msg
          end).
Proof.
  intros b t thr rule key kind Hb Hkind Hlast.
  pose proof (scan_last_match _ _ _ _ Hlast) as Hs.
  destruct rule as [| kv rule].
  - destruct Hlast as (l1 & l2 & Hnil & _). destruct l1; discriminate Hnil.
  - unfold guardrail_eval. rewrite Hs.
    destruct Hkind as [-> | ->]; rewrite Hb; reflexivity.
Qed.

Lemma guardrail_pct_zero_baseline_witness :
  guardrail_eval 0 250 [("max_drop_pct", PyNum 1)] = Ok (false, no_drop_msg)
  /\ guardrail_eval (-0) 250
       [("max_drop_pp", PyNum 0.01); ("max_increase_pct", PyNum 5);
        ("owner", PyNone)]
     = Ok (false, no_increase_msg).
Proof.
  split.
  - apply (guardrail_pct_zero_baseline 0 250 1 [("max_drop_pct", PyNum 1)]
             "max_drop_pct" drop_pct).
    + reflexivity.
    + left. reflexivity.
    + exists [], []. repeat split. constructor.
  - apply (guardrail_pct_zero_baseline (-0) 250 5
             [("max_drop_pp", PyNum 0.01); ("max_increase_pct", PyNum 5);
              ("owner", PyNone)]
             "max_increase_pct" increase_pct).
    + reflexivity.
    + right. reflexivity.
    + exists [("max_drop_pp", PyNum 0.01)], [("owner", PyNone)].
      repeat split. constructor; [reflexivity | constructor].
Defined.

End GuardrailFacts.

(** ** Proportion test and confidence interval *)

Section StatsFacts.

Import Stats.
Local Open Scope R_scope.

Lemma Rltb_true (x y : R) : Rltb x y = true <-> x < y.
Proof. unfold Rltb. destruct (Rlt_dec x y); split; intros; congruence || assumption. Qed.

Lemma Rltb_false (x y : R) : Rltb x y = false <-> y <= x.
Proof.
  unfold Rltb. destruct (Rlt_dec x y); split; intros; try congruence; lra.
Qed.

Lemma Rleb_true (x y : R) : Rleb x y = true <-> x <= y.
Proof. unfold Rleb. destruct (Rle_dec x y); split; intros; congruence || assumption. Qed.

Lemma Rleb_false (x y : R) : Rleb x y = false <-> y < x.
Proof.
  unfold Rleb. destruct (Rle_dec x y); split; intros; try congruence; lra.
Qed.

(** The recursion of [_inverse_normal_cdf] is one call deep: two units of
    fuel always give a result, and more fuel gives the same one. *)
Lemma inverse_normal_cdf_fuel_enough (p : R) (n : nat) :
  inverse_normal_cdf_fuel (S (S n)) p = Some (_inverse_normal_cdf p).
Proof.
  unfold _inverse_normal_cdf.
  assert (H1 : forall m q, q < 0.5 ->
            inverse_normal_cdf_fuel (S m) q = inverse_normal_cdf_fuel 1 q
            /\ inverse_normal_cdf_fuel 1 q <> None).
  { intros m q Hq. simpl.
    destruct (Rleb q 0 || Rleb 1 q); [split; congruence |].
    destruct (Rltb (Rabs (q - 0.025)) 1e-6); [split; congruence |].
    destruct (Rltb (Rabs (q - 0.005)) 1e-6); [split; congruence |].
    destruct (Rltb 0.5 q) eqn:Hh; [apply Rltb_true in Hh; lra |].
    split; congruence. }
  change (inverse_normal_cdf_fuel (S (S n)) p) with
    (if Rleb p 0 || Rleb 1 p then
       Some (Raise (ValueError "Probability must be between 0 and 1 (exclusive)"))
     else if Rltb (Rabs (p - 0.025)) 1e-6 then Some (Ok (-1.96))
     else if Rltb (Rabs (p - 0.005)) 1e-6 then Some (Ok (-2.576))
     else if Rltb 0.5 p then
       match inverse_normal_cdf_fuel (S n) (1 - p) with
       | Some (Ok z) => Some (Ok (- z))
       | other => other
       end
     else Some (Ok (rational_approx p))).
  change (inverse_normal_cdf_fuel 2 p) with
    (if Rleb p 0 || Rleb 1 p then
       Some (Raise (ValueError "Probability must be between 0 and 1 (exclusive)"))
     else if Rltb (Rabs (p - 0.025)) 1e-6 then Some (Ok (-1.96))
     else if Rltb (Rabs (p - 0.005)) 1e-6 then Some (Ok (-2.576))
     else if Rltb 0.5 p then
       match inverse_normal_cdf_fuel 1 (1 - p) with
       | Some (Ok z) => Some (Ok (- z))
       | other => other
       end
     else Some (Ok (rational_approx p))).
  destruct (Rleb p 0 || Rleb 1 p); [reflexivity |].
  destruct (Rltb (Rabs (p - 0.025)) 1e-6); [reflexivity |].
  destruct (Rltb (Rabs (p - 0.005)) 1e-6); [reflexivity |].
  destruct (Rltb 0.5 p) eqn:Hh; [| reflexivity].
  apply Rltb_true in Hh.
  destruct (H1 n (1 - p)) as [-> Hne]; [lra |].
  destruct (inverse_normal_cdf_fuel 1 (1 - p)) as [[z | e] |];
    [reflexivity | reflexivity | congruence].
Qed.

(** On [(0, 1)] the quantile function returns. *)
Lemma inverse_normal_cdf_returns (p : R) :
  0 < p < 1 -> exists z, _inverse_normal_cdf p = Ok z.
Proof.
  intros Hp. unfold _inverse_normal_cdf. simpl.
  assert (Hr : Rleb p 0 || Rleb 1 p = false).
  { apply orb_false_iff. split; apply Rleb_false; lra. }
  rewrite Hr.
  destruct (Rltb (Rabs (p - 0.025)) 1e-6); [eauto |].
  destruct (Rltb (Rabs (p - 0.005)) 1e-6); [eauto |].
  destruct (Rltb 0.5 p) eqn:Hh; [| eauto].
  apply Rltb_true in Hh.
  assert (Hr' : Rleb (1 - p) 0 || Rleb 1 (1 - p) = false).
  { apply orb_false_iff. split; apply Rleb_false; lra. }
  rewrite Hr'.
  destruct (Rltb (Rabs (1 - p - 0.025)) 1e-6); [eauto |].
  destruct (Rltb (Rabs (1 - p - 0.005)) 1e-6); [eauto |].
  destruct (Rltb 0.5 (1 - p)) eqn:Hh'; [apply Rltb_true in Hh'; lra | eauto].
Qed.

Lemma z_critical_returns (alpha : R) :
  valid_alpha alpha -> exists z, z_critical alpha = Ok z /\ 0 <= z.
Proof.
  intros Ha. unfold valid_alpha in Ha. unfold z_critical.
  destruct (Reqb alpha 0.05).
  - exists 1.96. split; [reflexivity | lra].
  - destruct (inverse_normal_cdf_returns (alpha / 2)) as [z Hz]; [lra |].
    rewrite Hz. simpl. exists (Rabs z). split; [reflexivity | apply Rabs_pos].
Qed.

Lemma rate_bounds (s t : Z) :
  valid_arm s t -> 0 <= IZR s / IZR t <= 1.
Proof.
  intros [[H0 H1] Ht].
  apply IZR_le in H0, H1. apply IZR_lt in Ht.
  assert (Hx : IZR s / IZR t * IZR t = IZR s) by (field; lra).
  split.
  - apply Rmult_le_pos; [lra |]. left. apply Rinv_0_lt_compat. lra.
  - apply (Rmult_le_reg_r (IZR t)); lra.
Qed.

Lemma validation_passes (s t : Z) :
  valid_arm s t ->
  (t <=? 0)%Z = false /\ (s <? 0)%Z = false /\ (s >? t)%Z = false.
Proof.
  intros [[H0 H1] Ht]. repeat split.
  - apply Z.leb_gt. lia.
  - apply Z.ltb_ge. lia.
  - rewrite Z.gtb_ltb. apply Z.ltb_ge. lia.
Qed.

Lemma alpha_passes (alpha : R) :
  valid_alpha alpha -> negb (Rltb 0 alpha && Rltb alpha 1) = false.
Proof.
  intros [H0 H1]. apply negb_false_iff, andb_true_iff.
  split; apply Rltb_true; assumption.
Qed.

End StatsFacts.

Section ProportionTestFacts.

Import Stats.
Local Open Scope R_scope.
Context {EF : ErrorFunction}.

(** The pooled standard error and the z statistic, as
    [two_proportion_test] computes them. *)
Definition pooled_se (sa ta sb tb : Z) : R :=
  let p_pooled := IZR (sa + sb) / IZR (ta + tb) in
  sqrt (p_pooled * (1 - p_pooled) * (1 / IZR ta + 1 / IZR tb)).

Definition z_statistic (sa ta sb tb : Z) : R :=
  if Rltb 0 (pooled_se sa ta sb tb)
  then (IZR sb / IZR tb - IZR sa / IZR ta) / pooled_se sa ta sb tb
  else 0.

Lemma two_proportion_test_returns (sa ta sb tb : Z) (alpha : R) :
  valid_arm sa ta -> valid_arm sb tb -> valid_alpha alpha ->
  exists r, two_proportion_test sa ta sb tb alpha = Ok r
            /\ PT.effect_abs r = IZR sb / IZR tb - IZR sa / IZR ta
            /\ PT.p_value r =
               2 * (1 - 0.5 * (1 + erf (Rabs (z_statistic sa ta sb tb) / sqrt 2))).
Proof.
  intros Ha Hb Hal.
  destruct (validation_passes sa ta Ha) as (A1 & A2 & A3).
  destruct (validation_passes sb tb Hb) as (B1 & B2 & B3).
  destruct (z_critical_returns alpha Hal) as (zc & Hz & _).
  unfold two_proportion_test.
  rewrite A1, A2, A3, B1, B2, B3, (alpha_passes alpha Hal), Hz. simpl.
  eexists. split; [reflexivity |]. split; reflexivity.
Qed.

Lemma pooled_se_swap (sa ta sb tb : Z) :
  pooled_se sb tb sa ta = pooled_se sa ta sb tb.
Proof.
  unfold pooled_se. rewrite (Z.add_comm sb sa), (Z.add_comm tb ta).
  f_equal. ring.
Qed.

Lemma z_statistic_swap (sa ta sb tb : Z) :
  z_statistic sb tb sa ta = - z_statistic sa ta sb tb.
Proof.
  unfold z_statistic. rewrite pooled_se_swap.
  destruct (Rltb 0 (pooled_se sa ta sb tb)) eqn:Hse.
  - unfold Rdiv. ring.
  - ring.
Qed.



Lemma two_tailed_range (z : R) :
  let p := 2 * (1 - 0.5 * (1 + erf (Rabs z / sqrt 2))) in
  0 <= p <= 1 /\ (p = 1 <-> z = 0).
Proof.
  intros p.
  assert (Hs2 : 0 < sqrt 2) by (apply sqrt_lt_R0; lra).
  assert (Hp : p = 1 - erf (Rabs z / sqrt 2)) by (unfold p; lra).
  pose proof (erf_lt_1 (Rabs z / sqrt 2)) as Hlt.
  destruct (Req_dec_T z 0) as [-> | Hz].
  - rewrite Rabs_R0 in *. unfold Rdiv in *. rewrite Rmult_0_l in *.
    rewrite erf_0 in Hp. split; [lra |]. split; intros; [reflexivity | lra].
  - assert (Ha : 0 < Rabs z / sqrt 2).
    { apply Rdiv_lt_0_compat; [now apply Rabs_pos_lt | assumption]. }
    pose proof (erf_pos _ Ha) as Hpos.
    split; [lra |]. split; intros; [lra | contradiction].
Qed.

End ProportionTestFacts.

(** A function with the three properties of [ErrorFunction], which shows
    that the interface is inhabited; it instantiates the interface in the
    closed examples below. *)
Definition ratio_model (x : R) : R := (x / (1 + Rabs x))%R.

Lemma ratio_model_0 : ratio_model 0 = 0%R.
Proof. unfold ratio_model, Rdiv. apply Rmult_0_l. Qed.

Lemma ratio_model_pos (x : R) : (0 < x -> 0 < ratio_model x)%R.
Proof.
  intros Hx. unfold ratio_model. pose proof (Rabs_pos x).
  apply Rdiv_lt_0_compat; lra.
Qed.

Lemma ratio_model_lt_1 (x : R) : (ratio_model x < 1)%R.
Proof.
  unfold ratio_model. pose proof (Rabs_pos x) as Hp.
  pose proof (Rle_abs x) as Hle.
  apply (Rmult_lt_reg_r (1 + Rabs x)); [lra |].
  replace (x / (1 + Rabs x) * (1 + Rabs x))%R with x by (field; lra).
  lra.
Qed.

Definition ratio_erf : Stats.ErrorFunction :=
  {| Stats.erf := ratio_model;
     Stats.erf_0 := ratio_model_0;
     Stats.erf_pos := ratio_model_pos;
     Stats.erf_lt_1 := ratio_model_lt_1 |}.

(** ** create_metadata *)

Section MetadataFacts.

Import Sensitivity.

Lemma StronglySorted_weaken {A : Type} (R1 R2 : A -> A -> Prop) (l : list A) :
  (forall x y, R1 x y -> R2 x y) ->
  StronglySorted R1 l -> StronglySorted R2 l.
Proof.
  intros Himp H. induction H as [| a l Hl IH Ha]; constructor.
  - exact IH.
  - eapply Forall_impl; [| exact Ha]. intros b. apply Himp.
Qed.

Lemma sorted_users (l : list Z) :
  StronglySorted Z.le (ZSort.sort l) /\ Permutation l (ZSort.sort l).
Proof.
  split; [| apply ZSort.Permuted_sort].
  apply StronglySorted_weaken with (R1 := fun x y => is_true (Z.leb x y)).
  - intros x y H. now apply Z.leb_le.
  - apply ZSort.StronglySorted_sort.
    intros x y z Hxy Hyz. apply Z.leb_le. apply Z.leb_le in Hxy, Hyz. lia.
Qed.

Lemma sorted_uplifts (l : list Q) :
  StronglySorted Qle (QSort.sort l) /\ Permutation l (QSort.sort l).
Proof.
  split; [| apply QSort.Permuted_sort].
  apply StronglySorted_weaken with (R1 := fun x y => is_true (Qle_bool x y)).
  - intros x y H. now apply Qle_bool_iff.
  - apply QSort.StronglySorted_sort.
    intros x y z Hxy Hyz. apply Qle_bool_iff. apply Qle_bool_iff in Hxy, Hyz.
    eapply Qle_trans; eassumption.
Qed.

Lemma nodup_len (l : list Z) : NoDup l -> distinct_users l = len l.
Proof. intros H. unfold distinct_users. now rewrite nodup_fixed_point. Qed.

(** C9 (amended): the metadata record holds the users_per_day values and
    the uplift values in sorted order, each a rearrangement of the input
    list with its duplicates kept; its grid size is the length of the users
    list times the length of the uplifts list, and its total trial count is
    grid size times repeats. When the users list has no duplicate, the
    sorted list has none and the lengths count distinct values. *)
Theorem create_metadata_grid :
  forall (utcnow : string) (git_hash : option string)
         (users_list : list Z) (uplifts_list : list Q) (repeats : Z)
         (alpha : R) (target : option R),
    let m := create_metadata utcnow git_hash users_list uplifts_list
               repeats alpha target in
    StronglySorted Z.le (users_per_day m)
    /\ Permutation users_list (users_per_day m)
    /\ StronglySorted Qle (uplifts m)
    /\ Permutation uplifts_list (uplifts m)
    /\ grid_size m = (len users_list * len uplifts_list)%Z
    /\ total_simulations m = (grid_size m * repeats)%Z
    /\ (NoDup users_list ->
        NoDup (users_per_day m)
        /\ distinct_users (users_per_day m) = len users_list)
    /\ (NoDup uplifts_list -> NoDup (uplifts m)).
Proof.
  intros utcnow git_hash users_list uplifts_list repeats alpha target m.
  destruct (sorted_users users_list) as [Hsu Hpu].
  destruct (sorted_uplifts uplifts_list) as [Hsq Hpq].
  simpl. repeat split; try assumption.
  - eapply Permutation_NoDup; eassumption.
  - rewrite nodup_len by (eapply Permutation_NoDup; eassumption).
    unfold len. now rewrite <- (Permutation_length Hpu).
  - intros H. eapply Permutation_NoDup; eassumption.
Qed.

(** C9, as stated, fails on a users list with a repeated value: the
    sorted list keeps the duplicate and the grid size counts it. *)
Lemma create_metadata_keeps_duplicates :
  let m := create_metadata "2025-02-01T00:00:00" None [1000; 1000]%Z [0%Q]
             20 0.05 None in
  users_per_day m = [1000; 1000]%Z
  /\ grid_size m = 2%Z
  /\ (distinct_users [1000; 1000] * len [0%Q])%Z = 1%Z
  /\ total_simulations m = 40%Z.
Proof. repeat split. Qed.

End MetadataFacts.

(** ** run_ccr_test *)

Section CcrFacts.

Import Stats Sensitivity.
Local Open Scope string_scope.
Context {EF : ErrorFunction}.

Lemma run_ccr_test_cases (q : query_outcome) (alpha : R) :
  match test_completed q alpha with
  | Some res =>
      run_ccr_test q alpha = (Rltb (PT.p_value res) alpha, PT.p_value res)
  | None => run_ccr_test q alpha = (false, 1%R)
  end.
Proof.
  unfold run_ccr_test, ccr_try, test_completed.
  destruct q as [| rows]; [reflexivity |].
  destruct (List.length rows <? 2)%nat; [reflexivity |].
  destruct (first_variant "control" rows) as [c | e]; simpl; [| reflexivity].
  destruct (first_variant "treatment" rows) as [t | e]; simpl; [| reflexivity].
  destruct (two_proportion_test (snd c) (snd (fst c)) (snd t) (snd (fst t)) alpha);
    reflexivity.
Qed.

Lemma test_completed_valid_alpha (q : query_outcome) (alpha : R) res :
  test_completed q alpha = Some res -> valid_alpha alpha.
Proof.
  unfold test_completed. destruct q as [| rows]; [discriminate |].
  destruct (List.length rows <? 2)%nat; [discriminate |].
  destruct (first_variant "control" rows) as [c | e]; [| discriminate].
  destruct (first_variant "treatment" rows) as [t | e]; [| discriminate].
  unfold two_proportion_test.
  destruct ((snd (fst c) <=? 0) || (snd (fst t) <=? 0))%Z; [discriminate |].
  destruct ((snd c <? 0) || (snd t <? 0))%Z; [discriminate |].
  destruct ((snd c >? snd (fst c)) || (snd t >? snd (fst t)))%Z; [discriminate |].
  destruct (Rltb 0 alpha && Rltb alpha 1) eqn:Ha; [| discriminate].
  intros _. apply andb_true_iff in Ha. destruct Ha as [H0 H1].
  split; now apply Rltb_true.
Qed.

(** A completed trial whose two arms have the same rate. *)
Definition tied_rows : list row :=
  [("control", 10%Z, 5%Z); ("treatment", 10%Z, 5%Z)].



End CcrFacts.

(** ** run_sensitivity_grid *)

Section GridFacts.

Import Stats Sensitivity.
Context {EF : ErrorFunction}.
Variable run_simulation : Z -> Z -> Z -> Q -> Z -> Z -> bool.
Variable build_warehouse : Z -> Z -> bool.
Variable warehouse_query : Z -> Z -> query_outcome.
Variables (base_date days repeats seed : Z) (alpha : R).

Local Abbreviation detected_at users uplift :=
  (trial_detected run_simulation build_warehouse warehouse_query
     base_date days users uplift seed alpha).
Local Abbreviation inner_step users uplift :=
  (repeat_step run_simulation build_warehouse warehouse_query
     base_date days users uplift seed alpha).
Local Abbreviation outer_step :=
  (point_step run_simulation build_warehouse warehouse_query
     base_date days repeats seed alpha).

(** The run numbers [rc + 1, ..., rc + n]. *)
Definition runs_from (rc : Z) (n : nat) : list Z :=
  map (fun j => (rc + Z.of_nat j + 1)%Z) (seq 0 n).

Definition trial_of (users : Z) (uplift : Q) (k : Z) : trial :=
  {| trial_run := k;
     trial_date := (base_date + k)%Z;
     trial_seed := (seed + k)%Z;
     trial_users := users;
     trial_uplift := uplift |}.

(** The number of detected trials among the runs [ks]. *)
Definition detected_count (users : Z) (uplift : Q) (ks : list Z) : Z :=
  len (filter (detected_at users uplift) ks).

Lemma runs_from_S (rc : Z) (n : nat) :
  runs_from rc (S n) = (rc + 1)%Z :: runs_from (rc + 1) n.
Proof.
  unfold runs_from. simpl. f_equal; [lia |].
  rewrite <- seq_shift, map_map. apply map_ext. intros j. lia.
Qed.

Lemma runs_from_app (rc : Z) (n m : nat) :
  runs_from rc (n + m) = (runs_from rc n ++ runs_from (rc + Z.of_nat n) m)%list.
Proof.
  revert rc. induction n as [| n IH]; intros rc.
  - simpl. f_equal. lia.
  - change (S n + m)%nat with (S (n + m)). rewrite !runs_from_S, IH. simpl.
    do 3 f_equal. lia.
Qed.

Lemma runs_from_bounds (rc : Z) (n : nat) (k : Z) :
  In k (runs_from rc n) <-> (rc < k <= rc + Z.of_nat n)%Z.
Proof.
  unfold runs_from. rewrite in_map_iff. split.
  - intros (j & <- & Hj). apply in_seq in Hj. lia.
  - intros Hk. exists (Z.to_nat (k - rc - 1)). split; [lia |].
    apply in_seq. lia.
Qed.

Lemma runs_from_NoDup (rc : Z) (n : nat) : NoDup (runs_from rc n).
Proof.
  revert rc. induction n as [| n IH]; intros rc.
  - constructor.
  - rewrite runs_from_S. constructor; [| apply IH].
    rewrite runs_from_bounds. lia.
Qed.

Lemma run_trial_detected (users : Z) (uplift : Q) (k : Z) :
  match run_trial run_simulation build_warehouse warehouse_query
          base_date days users uplift seed alpha k with
  | Tested true _ => detected_at users uplift k = true
  | _ => detected_at users uplift k = false
  end.
Proof.
  unfold run_trial, trial_detected.
  destruct (run_simulation (base_date + k) days users uplift (seed + k) k);
    simpl; [| reflexivity].
  destruct (build_warehouse k k); simpl; [| reflexivity].
  pose proof (run_ccr_test_cases (warehouse_query k (base_date + k)%Z) alpha) as H.
  destruct (test_completed (warehouse_query k (base_date + k)%Z) alpha) as [res |];
    rewrite H; [| reflexivity].
  destruct (Rltb (PT.p_value res) alpha); reflexivity.
Qed.

Lemma inner_step_spec (users : Z) (uplift : Q) (rc det : Z) (tr : list trial)
    (rep : nat) :
  inner_step users uplift (rc, det, tr) rep =
  ((rc + 1)%Z,
   (det + detected_count users uplift [(rc + 1)%Z])%Z,
   (tr ++ [trial_of users uplift (rc + 1)])%list).
Proof.
  unfold repeat_step, detected_count, len. simpl.
  pose proof (run_trial_detected users uplift (rc + 1)) as H.
  destruct (run_trial run_simulation build_warehouse warehouse_query
              base_date days users uplift seed alpha (rc + 1))
    as [| | [] p]; rewrite H; simpl; unfold trial_of;
    rewrite ?Z.add_0_r; reflexivity.
Qed.

Lemma detected_count_cons (users : Z) (uplift : Q) (k : Z) (ks : list Z) :
  detected_count users uplift (k :: ks) =
  (detected_count users uplift [k] + detected_count users uplift ks)%Z.
Proof.
  unfold detected_count, len. cbn [filter].
  destruct (detected_at users uplift k); cbn [List.length]; lia.
Qed.

Lemma detected_count_bounds (users : Z) (uplift : Q) (ks : list Z) :
  (0 <= detected_count users uplift ks <= len ks)%Z.
Proof.
  unfold detected_count, len.
  pose proof (filter_length_le (detected_at users uplift) ks). lia.
Qed.

(** The inner loop in closed form. *)
Lemma inner_loop_spec (users : Z) (uplift : Q) (n a : nat) (rc det : Z)
    (tr : list trial) :
  fold_left (inner_step users uplift) (seq a n) (rc, det, tr) =
  ((rc + Z.of_nat n)%Z,
   (det + detected_count users uplift (runs_from rc n))%Z,
   (tr ++ map (trial_of users uplift) (runs_from rc n))%list).
Proof.
  revert a rc det tr. induction n as [| n IH]; intros a rc det tr.
  - simpl. unfold detected_count, len. simpl.
    rewrite app_nil_r. repeat f_equal; lia.
  - rewrite runs_from_S. cbn [seq fold_left map].
    rewrite (detected_count_cons users uplift (rc + 1) (runs_from (rc + 1) n)).
    rewrite inner_step_spec, IH.
    rewrite <- app_assoc. cbn [app].
    rewrite Nat2Z.inj_succ. f_equal. f_equal; lia.
Qed.

(** The record appended for a grid point whose runs start after [rc]. *)
Definition point_result (rc : Z) (point : Z * Q) : grid_result :=
  let detections :=
    detected_count (fst point) (snd point) (runs_from rc (Z.to_nat repeats)) in
  {| res_users_per_day := fst point;
     res_uplift := snd point;
     res_repeats := repeats;
     res_detections := detections;
     res_detection_rate :=
       if (repeats >? 0)%Z then (IZR detections / IZR repeats)%R else 0%R;
     res_alpha := alpha |}.

Fixpoint grid_results (rc : Z) (points : list (Z * Q)) : list grid_result :=
  match points with
  | [] => []
  | p :: ps =>
      point_result rc p :: grid_results (rc + Z.of_nat (Z.to_nat repeats)) ps
  end.

Fixpoint grid_trace (rc : Z) (points : list (Z * Q)) : list trial :=
  match points with
  | [] => []
  | p :: ps =>
      (map (trial_of (fst p) (snd p)) (runs_from rc (Z.to_nat repeats))
       ++ grid_trace (rc + Z.of_nat (Z.to_nat repeats)) ps)%list
  end.

Lemma outer_step_spec (st : grid_state) (point : Z * Q) :
  outer_step st point =
  {| run_count := (run_count st + Z.of_nat (Z.to_nat repeats))%Z;
     results := (results st ++ [point_result (run_count st) point])%list;
     trace := (trace st ++ map (trial_of (fst point) (snd point))
                               (runs_from (run_count st) (Z.to_nat repeats)))%list |}.
Proof.
  destruct point as [users uplift]. unfold point_step.
  rewrite inner_loop_spec. reflexivity.
Qed.

(** The outer loop in closed form. *)
Lemma outer_loop_spec (points : list (Z * Q)) (st : grid_state) :
  fold_left outer_step points st =
  {| run_count :=
       (run_count st + Z.of_nat (List.length points * Z.to_nat repeats))%Z;
     results := (results st ++ grid_results (run_count st) points)%list;
     trace := (trace st ++ grid_trace (run_count st) points)%list |}.
Proof.
  revert st. induction points as [| p ps IH]; intros st.
  - simpl. rewrite !app_nil_r, Z.add_0_r. now destruct st.
  - cbn [fold_left]. rewrite IH, outer_step_spec. simpl.
    rewrite <- !app_assoc. simpl. f_equal. lia.
Qed.

Lemma grid_trace_runs (points : list (Z * Q)) (rc : Z) :
  map trial_run (grid_trace rc points) =
  runs_from rc (List.length points * Z.to_nat repeats).
Proof.
  revert rc. induction points as [| p ps IH]; intros rc.
  - reflexivity.
  - cbn [grid_trace List.length Nat.mul]. rewrite map_app, map_map, IH.
    cbn [trial_run trial_of]. rewrite map_id. symmetry. apply runs_from_app.
Qed.

Lemma grid_trace_fields (points : list (Z * Q)) (rc : Z) :
  Forall (fun t => trial_seed t = (seed + trial_run t)%Z
                   /\ trial_date t = (base_date + trial_run t)%Z)
         (grid_trace rc points).
Proof.
  revert rc. induction points as [| p ps IH]; intros rc.
  - constructor.
  - cbn [grid_trace]. apply Forall_app. split; [| apply IH].
    apply Forall_forall. intros t Ht. apply in_map_iff in Ht.
    destruct Ht as (k & <- & _). split; reflexivity.
Qed.

Lemma shifted_runs_NoDup (offset : Z) (f : trial -> Z) (tr : list trial)
    (n : nat) :
  map trial_run tr = runs_from 0 n ->
  Forall (fun t => f t = (offset + trial_run t)%Z) tr ->
  NoDup (map f tr).
Proof.
  intros Hruns Hf.
  assert (Hmap : map f tr = map (fun k => (offset + k)%Z) (map trial_run tr)).
  { rewrite map_map. apply map_ext_in. intros t Ht.
    rewrite Forall_forall in Hf. now apply Hf. }
  rewrite Hmap, Hruns. apply Injective_map_NoDup; [| apply runs_from_NoDup].
  intros x y Hxy. lia.
Qed.

(** The trace lists the trials numbered 1, 2, ..., N by the run counter,
    in the order they are started, across all grid points, with the seed
    [seed + k] and the day [base_date + k] for trial number k. *)
Lemma grid_trace_numbered :
  forall (users_list : list Z) (uplifts_list : list Q),
    let st := run_sensitivity_grid_state run_simulation build_warehouse
                warehouse_query base_date days users_list uplifts_list
                repeats seed alpha in
    map trial_run (trace st) =
      runs_from 0 (List.length (list_prod users_list uplifts_list)
                   * Z.to_nat repeats)
    /\ Forall (fun t => trial_seed t = (seed + trial_run t)%Z
                        /\ trial_date t = (base_date + trial_run t)%Z)
              (trace st)
    /\ NoDup (map trial_seed (trace st))
    /\ NoDup (map trial_date (trace st)).
Proof.
  intros users_list uplifts_list st.
  assert (Htr : trace st = grid_trace 0 (list_prod users_list uplifts_list)).
  { unfold st, run_sensitivity_grid_state. rewrite outer_loop_spec. reflexivity. }
  rewrite Htr.
  pose proof (grid_trace_runs (list_prod users_list uplifts_list) 0) as Hruns.
  pose proof (grid_trace_fields (list_prod users_list uplifts_list) 0) as Hf.
  repeat split; try assumption.
  - eapply shifted_runs_NoDup; [exact Hruns |].
    eapply Forall_impl; [| exact Hf]. intros t [H _]. exact H.
  - eapply shifted_runs_NoDup; [exact Hruns |].
    eapply Forall_impl; [| exact Hf]. intros t [_ H]. exact H.
Qed.

(** What C7 says of the record [r] of the grid point [point] of index [i]. *)
Definition point_ok (ip : nat * (Z * Q)) (r : grid_result) : Prop :=
  res_users_per_day r = fst (snd ip)
  /\ res_uplift r = snd (snd ip)
  /\ res_repeats r = repeats
  /\ res_detections r =
       len (filter (detected_at (fst (snd ip)) (snd (snd ip)))
                   (point_runs repeats (fst ip)))
  /\ (0 <= res_detections r <= repeats)%Z
  /\ res_detection_rate r = (IZR (res_detections r) / IZR repeats)%R
  /\ (0 <= res_detection_rate r <= 1)%R.

Lemma point_result_ok (i : nat) (point : Z * Q) :
  (0 < repeats)%Z ->
  point_ok (i, point) (point_result (Z.of_nat i * repeats) point).
Proof.
  intros Hrep. unfold point_ok, point_result. cbn [fst snd res_users_per_day
    res_uplift res_repeats res_detections res_detection_rate].
  set (d := detected_count (fst point) (snd point)
              (runs_from (Z.of_nat i * repeats) (Z.to_nat repeats))).
  assert (Hd : (0 <= d <= repeats)%Z).
  { pose proof (detected_count_bounds (fst point) (snd point)
                  (runs_from (Z.of_nat i * repeats) (Z.to_nat repeats))) as H.
    fold d in H. unfold len, runs_from in H.
    rewrite length_map, length_seq in H. lia. }
  assert (Hgt : (repeats >? 0)%Z = true) by (rewrite Z.gtb_ltb; now apply Z.ltb_lt).
  rewrite Hgt. repeat split; try reflexivity; try lia.
  - apply rate_bounds. unfold valid_arm. lia.
  - apply rate_bounds. unfold valid_arm. lia.
Qed.

Lemma grid_results_ok (points : list (Z * Q)) (i : nat) :
  (0 < repeats)%Z ->
  Forall2 point_ok (combine (seq i (List.length points)) points)
          (grid_results (Z.of_nat i * repeats) points).
Proof.
  intros Hrep. revert i. induction points as [| p ps IH]; intros i.
  - constructor.
  - cbn [List.length seq combine grid_results]. constructor.
    + now apply point_result_ok.
    + replace (Z.of_nat i * repeats + Z.of_nat (Z.to_nat repeats))%Z
        with (Z.of_nat (S i) * repeats)%Z by lia.
      apply IH.
Qed.

(** C7: with a positive [repeats], the record of every grid point, in
    grid order, reports [detections] equal to the number of that point's
    trials that completed the test with [p_value < alpha], and
    [detection_rate = detections / repeats] with the configured [repeats]
    as denominator whatever the number of failed trials; so
    [detections <= repeats] and [0 <= detection_rate <= 1]. *)
Theorem grid_detection_rate :
  forall (users_list : list Z) (uplifts_list : list Q),
    (0 < repeats)%Z ->
    Forall2 point_ok
      (combine (seq 0 (List.length (list_prod users_list uplifts_list)))
               (list_prod users_list uplifts_list))
      (run_sensitivity_grid run_simulation build_warehouse warehouse_query
         base_date days users_list uplifts_list repeats seed alpha).
Proof.
  intros users_list uplifts_list Hrep.
  unfold run_sensitivity_grid, run_sensitivity_grid_state.
  rewrite outer_loop_spec. cbn [results run_count app].
  apply (grid_results_ok _ 0%nat Hrep).
Qed.

End GridFacts.

(** ** Closed examples of the grid *)

(** Collaborators for the examples: the simulation of a run fails when
    its seed is even, the warehouse build always succeeds, and the query
    returns [tied_rows]. *)
Definition odd_seed_simulation (date days users : Z) (uplift : Q)
    (seed output_dir : Z) : bool := Z.odd seed.

Definition build_ok (data_dir db_path : Z) : bool := true.

Definition tied_query (db_path date : Z) : Sensitivity.query_outcome :=
  Sensitivity.Fetched tied_rows.

Definition failing_simulation (date days users : Z) (uplift : Q)
    (seed output_dir : Z) : bool := false.

Lemma grid_detection_rate_witness :
  Forall2
    (@point_ok ratio_erf odd_seed_simulation build_ok tied_query
       739283 1 20 7 0.05)
    (combine (seq 0 (List.length (list_prod [1000%Z] [0%Q])))
             (list_prod [1000%Z] [0%Q]))
    (@Sensitivity.run_sensitivity_grid ratio_erf odd_seed_simulation build_ok
       tied_query 739283 1 [1000%Z] [0%Q] 20 7 0.05).
Proof.
  apply (@grid_detection_rate ratio_erf odd_seed_simulation build_ok
           tied_query 739283 1 20 7 0.05 [1000%Z] [0%Q]).
  lia.
Defined.

(** A 2 x 2 grid with two repeats, base seed 7, every simulation failing:
    eight trials with seeds 8 to 15 and eight consecutive dates, and four
    records with no detection. *)
Example grid_trace_2x2 :
  let st := @Sensitivity.run_sensitivity_grid_state ratio_erf
              failing_simulation build_ok tied_query 739283 1
              [1000; 2000]%Z [0%Q; (2 # 100)%Q] 2 7 0.05 in
  map Sensitivity.trial_seed (Sensitivity.trace st)
    = [8; 9; 10; 11; 12; 13; 14; 15]%Z
  /\ map Sensitivity.trial_date (Sensitivity.trace st)
     = [739284; 739285; 739286; 739287; 739288; 739289; 739290; 739291]%Z
  /\ map Sensitivity.res_detections (Sensitivity.results st) = [0; 0; 0; 0]%Z
  /\ map Sensitivity.res_users_per_day (Sensitivity.results st)
     = [1000; 1000; 2000; 2000]%Z.
Proof. repeat split. Qed.

(** * Further properties of the statistics framework *)

Section ValidationFacts.

Import Stats.
Local Open Scope R_scope.
Context {EF : ErrorFunction}.

Lemma validation_fails (s t : Z) :
  (t <=? 0)%Z = false -> (s <? 0)%Z = false -> (s >? t)%Z = false ->
  valid_arm s t.
Proof.
  intros Ht Hs Hst. apply Z.leb_gt in Ht. apply Z.ltb_ge in Hs.
  rewrite Z.gtb_ltb in Hst. apply Z.ltb_ge in Hst. unfold valid_arm. lia.
Qed.

Lemma alpha_fails (alpha : R) :
  negb (Rltb 0 alpha && Rltb alpha 1) = false -> valid_alpha alpha.
Proof.
  intros H. apply negb_false_iff, andb_true_iff in H. destruct H as [H0 H1].
  split; now apply Rltb_true.
Qed.

(** All fields of the result of [two_proportion_test] on valid input. *)
Lemma two_proportion_test_fields (sa ta sb tb : Z) (alpha : R) :
  valid_arm sa ta -> valid_arm sb tb -> valid_alpha alpha ->
  exists r zc,
    two_proportion_test sa ta sb tb alpha = Ok r
    /\ z_critical alpha = Ok zc /\ 0 <= zc
    /\ PT.effect_abs r = IZR sb / IZR tb - IZR sa / IZR ta
    /\ PT.effect_rel r =
         (if Rltb 0 (IZR sa / IZR ta)
          then Finite ((IZR sb / IZR tb - IZR sa / IZR ta) / (IZR sa / IZR ta))
          else Infinity)
    /\ PT.ci_low r =
         PT.effect_abs r
         - zc * sqrt (IZR sa / IZR ta * (1 - IZR sa / IZR ta) / IZR ta
                      + IZR sb / IZR tb * (1 - IZR sb / IZR tb) / IZR tb)
    /\ PT.ci_high r =
         PT.effect_abs r
         + zc * sqrt (IZR sa / IZR ta * (1 - IZR sa / IZR ta) / IZR ta
                      + IZR sb / IZR tb * (1 - IZR sb / IZR tb) / IZR tb).
Proof.
  intros Ha Hb Hal.
  destruct (validation_passes sa ta Ha) as (A1 & A2 & A3).
  destruct (validation_passes sb tb Hb) as (B1 & B2 & B3).
  destruct (z_critical_returns alpha Hal) as (zc & Hz & Hzc).
  unfold two_proportion_test.
  rewrite A1, A2, A3, B1, B2, B3, (alpha_passes alpha Hal), Hz. simpl.
  eexists. exists zc. repeat split; try reflexivity; assumption.
Qed.

End ValidationFacts.


Section IntervalFacts.

Import Stats.
Local Open Scope R_scope.

(** All fields of the result of [proportion_ci] on valid input. *)
Lemma proportion_ci_fields (s t : Z) (alpha : R) :
  valid_arm s t -> valid_alpha alpha ->
  exists c zc,
    proportion_ci s t alpha = Ok c
    /\ z_critical alpha = Ok zc /\ 0 <= zc
    /\ CI.rate c = IZR s / IZR t
    /\ CI.ci_low c =
         Rmax 0 (IZR s / IZR t
                 - zc * sqrt (IZR s / IZR t * (1 - IZR s / IZR t) / IZR t))
    /\ CI.ci_high c =
         Rmin 1 (IZR s / IZR t
                 + zc * sqrt (IZR s / IZR t * (1 - IZR s / IZR t) / IZR t)).
Proof.
  intros Harm Ha.
  destruct (validation_passes s t Harm) as (V1 & V2 & V3).
  destruct (z_critical_returns alpha Ha) as (zc & Hz & Hzc).
  unfold proportion_ci. rewrite V1, V2, V3, (alpha_passes alpha Ha), Hz. simpl.
  eexists. exists zc. repeat split; try reflexivity; assumption.
Qed.

(** *** _inverse_normal_cdf *)

(** The value on the lower half: the two tabulated constants, else the
    rational approximation. *)
Definition lower_quantile (p : R) : R :=
  if Rltb (Rabs (p - 0.025)) 1e-6 then -1.96
  else if Rltb (Rabs (p - 0.005)) 1e-6 then -2.576
  else rational_approx p.

Lemma inverse_normal_cdf_lower (p : R) :
  0 < p <= 0.5 -> _inverse_normal_cdf p = Ok (lower_quantile p).
Proof.
  intros Hp. unfold _inverse_normal_cdf, lower_quantile. simpl.
  assert (Hr : Rleb p 0 || Rleb 1 p = false).
  { apply orb_false_iff. split; apply Rleb_false; lra. }
  rewrite Hr.
  destruct (Rltb (Rabs (p - 0.025)) 1e-6); [reflexivity |].
  destruct (Rltb (Rabs (p - 0.005)) 1e-6); [reflexivity |].
  destruct (Rltb 0.5 p) eqn:Hh; [apply Rltb_true in Hh; lra | reflexivity].
Qed.


(** [_inverse_normal_cdf] raises exactly outside the open interval
    (0, 1). *)
Theorem inverse_normal_cdf_domain :
  forall p : R,
    raises (_inverse_normal_cdf p) = true <-> p <= 0 \/ 1 <= p.
Proof.
  intros p. split.
  - intros Hr. destruct (Rle_dec p 0) as [| H0]; [now left |].
    destruct (Rle_dec 1 p) as [| H1]; [now right |].
    destruct (inverse_normal_cdf_returns p) as [z Hz]; [lra |].
    rewrite Hz in Hr. discriminate Hr.
  - intros H. unfold _inverse_normal_cdf. simpl.
    assert (Hr : Rleb p 0 || Rleb 1 p = true).
    { apply orb_true_iff. destruct H; [left | right]; now apply Rleb_true. }
    rewrite Hr. reflexivity.
Qed.



End IntervalFacts.

(** ** mean_ci *)

Module MeanCI.

Import Stats.
Local Open Scope string_scope.
Local Open Scope R_scope.

Record t : Type := {
  mean : R;
  ci_low : R;
  ci_high : R
}.

Definition Rsum (xs : list R) : R := fold_right Rplus 0 xs.

(** [statistics.mean]: the arithmetic mean. *)
Definition statistics_mean (values : list R) : R :=
  Rsum values / INR (List.length values).

(** [statistics.stdev]: the square root of the sample variance, the sum
    of squared deviations from the mean over [n - 1]. *)
Definition statistics_stdev (values : list R) : R :=
  let m := statistics_mean values in
  sqrt (Rsum (map (fun x => (x - m) * (x - m)) values)
        / (INR (List.length values) - 1)).

(** [values] holds numbers already, so the conversion
    [[float(v) for v in values]] does not raise. *)
Definition mean_ci (values : list R) (alpha : R) : result t :=
  match values with
  | [] => Raise (ValueError "Values array cannot be empty")
  | _ :: _ =>
    if (List.length values <? 2)%nat then
      Raise (ValueError "Need at least 2 values to compute confidence interval")
    else if negb (Rltb 0 alpha && Rltb alpha 1) then
      Raise (ValueError "Alpha must be between 0 and 1")
    else
      let mean := statistics_mean values in
      let n := List.length values in
      if (n =? 1)%nat then
        Ok {| mean := mean; ci_low := mean; ci_high := mean |}
      else
        let stdev := statistics_stdev values in
        let se := stdev / sqrt (INR n) in
        z_crit <- z_critical alpha ;;
        let ci_low := mean - z_crit * se in
        let ci_high := mean + z_crit * se in
        Ok {| mean := mean; ci_low := ci_low; ci_high := ci_high |}
  end.

End MeanCI.

Section MeanFacts.

Import Stats MeanCI.
Local Open Scope string_scope.
Local Open Scope R_scope.

(** With fewer than two values [mean_ci] raises whatever alpha is, also
    an alpha outside (0, 1): the two size checks come first, each with
    its own message, so the single-value result of the [n == 1] branch is
    never returned. *)
Theorem mean_ci_too_few :
  forall (values : list R) (alpha : R),
    (List.length values < 2)%nat ->
    mean_ci values alpha =
    Raise (ValueError
             (match values with
              | [] => "Values array cannot be empty"
              | _ => "Need at least 2 values to compute confidence interval"
              end)).
Proof.
  intros values alpha Hlen.
  destruct values as [| x [| y rest]]; [reflexivity | reflexivity |].
  simpl in Hlen. lia.
Qed.

Lemma mean_ci_too_few_witness :
  mean_ci [250] 7 =
  Raise (ValueError "Need at least 2 values to compute confidence interval").
Proof. apply (mean_ci_too_few [250] 7). simpl. lia. Defined.

Lemma mean_ci_fields (values : list R) (alpha : R) :
  (2 <= List.length values)%nat -> valid_alpha alpha ->
  exists m zc,
    mean_ci values alpha = Ok m
    /\ z_critical alpha = Ok zc /\ 0 <= zc
    /\ mean m = statistics_mean values
    /\ ci_low m = statistics_mean values
                  - zc * (statistics_stdev values
                          / sqrt (INR (List.length values)))
    /\ ci_high m = statistics_mean values
                   + zc * (statistics_stdev values
                           / sqrt (INR (List.length values))).
Proof.
  intros Hlen Ha.
  destruct (z_critical_returns alpha Ha) as (zc & Hz & Hzc).
  destruct values as [| x [| y rest]]; [simpl in Hlen; lia | simpl in Hlen; lia |].
  unfold mean_ci.
  change (List.length (x :: y :: rest) <? 2)%nat with false.
  change (List.length (x :: y :: rest) =? 1)%nat with false.
  cbv iota. rewrite (alpha_passes alpha Ha), Hz. simpl bind.
  eexists. exists zc. repeat split; try reflexivity; assumption.
Qed.

Lemma mean_ci_ok_inv (values : list R) (alpha : R) (m : MeanCI.t) :
  mean_ci values alpha = Ok m ->
  (2 <= List.length values)%nat /\ valid_alpha alpha.
Proof.
  destruct values as [| x [| y rest]]; [discriminate | discriminate |].
  unfold mean_ci.
  change (List.length (x :: y :: rest) <? 2)%nat with false. cbv iota.
  destruct (negb (Rltb 0 alpha && Rltb alpha 1)) eqn:H4; [discriminate |].
  intros _. split; [simpl; lia | now apply alpha_fails].
Qed.

Lemma Rsum_bounds (lo hi : R) (values : list R) :
  Forall (fun x => lo <= x <= hi) values ->
  INR (List.length values) * lo <= Rsum values <= INR (List.length values) * hi.
Proof.
  intros H. induction H as [| x l Hx _ IH].
  - simpl. lra.
  - cbn [Rsum fold_right List.length]. fold (Rsum l). rewrite S_INR. lra.
Qed.

(** Whenever [mean_ci] returns, the reported mean lies between the
    smallest and the largest value, and the interval contains the mean:
    [ci_low <= mean <= ci_high]. *)
Theorem mean_ci_contains_mean :
  forall (values : list R) (alpha : R) (m : MeanCI.t) (lo hi : R),
    mean_ci values alpha = Ok m ->
    Forall (fun x => lo <= x <= hi) values ->
    lo <= mean m <= hi
    /\ ci_low m <= mean m <= ci_high m.
Proof.
  intros values alpha m lo hi Hm Hb.
  destruct (mean_ci_ok_inv _ _ _ Hm) as [Hlen Ha].
  destruct (mean_ci_fields values alpha Hlen Ha)
    as (m' & zc & Hm' & _ & Hzc & Hmean & Hlo & Hhi).
  assert (m' = m) by congruence. subst m'.
  assert (Hn : 0 < INR (List.length values)) by (apply lt_0_INR; lia).
  assert (Hsq : 0 < sqrt (INR (List.length values))) by now apply sqrt_lt_R0.
  assert (Hse : 0 <= statistics_stdev values / sqrt (INR (List.length values))).
  { apply Rmult_le_pos; [apply sqrt_pos |]. left. now apply Rinv_0_lt_compat. }
  split.
  - rewrite Hmean. unfold statistics_mean.
    pose proof (Rsum_bounds lo hi values Hb) as [H1 H2]. split.
    + apply (Rmult_le_reg_l (INR (List.length values))); [assumption |].
      replace (INR (List.length values)
               * (Rsum values / INR (List.length values)))
        with (Rsum values) by (field; lra).
      exact H1.
    + apply (Rmult_le_reg_l (INR (List.length values))); [assumption |].
      replace (INR (List.length values)
               * (Rsum values / INR (List.length values)))
        with (Rsum values) by (field; lra).
      exact H2.
  - rewrite Hlo, Hhi, Hmean.
    set (w := zc * (statistics_stdev values / sqrt (INR (List.length values)))).
    assert (Hw : 0 <= w) by (apply Rmult_le_pos; assumption).
    split; lra.
Qed.

Lemma mean_ci_contains_mean_witness :
  exists m,
    mean_ci [250; 260; 255; 248; 262] 0.05 = Ok m
    /\ (248 <= mean m <= 262 /\ ci_low m <= mean m <= ci_high m).
Proof.
  assert (Hlen : (2 <= List.length [250; 260; 255; 248; 262])%nat)
    by (simpl; lia).
  assert (Ha : valid_alpha 0.05) by (unfold valid_alpha; lra).
  destruct (mean_ci_fields [250; 260; 255; 248; 262] 0.05 Hlen Ha)
    as (m & zc & Hm & _).
  exists m. split; [exact Hm |].
  apply (mean_ci_contains_mean [250; 260; 255; 248; 262] 0.05 m 248 262 Hm).
  repeat constructor; lra.
Defined.

Lemma Rsum_constant (c : R) (values : list R) :
  Forall (fun x => x = c) values ->
  Rsum values = INR (List.length values) * c.
Proof.
  intros H. induction H as [| x l Hx _ IH].
  - simpl. ring.
  - cbn [Rsum fold_right List.length]. fold (Rsum l). rewrite IH, Hx, S_INR. ring.
Qed.

(** Whenever [mean_ci] returns for values that are all equal, the
    interval collapses onto that value: [mean = ci_low = ci_high]. *)
Theorem mean_ci_constant :
  forall (c : R) (values : list R) (alpha : R) (m : MeanCI.t),
    mean_ci values alpha = Ok m ->
    Forall (fun x => x = c) values ->
    mean m = c /\ ci_low m = c /\ ci_high m = c.
Proof.
  intros c values alpha m Hm Hc.
  destruct (mean_ci_ok_inv _ _ _ Hm) as [Hlen Ha].
  destruct (mean_ci_fields values alpha Hlen Ha)
    as (m' & zc & Hm' & _ & _ & Hmean & Hlo & Hhi).
  assert (m' = m) by congruence. subst m'.
  assert (Hn : 0 < INR (List.length values)) by (apply lt_0_INR; lia).
  assert (Hmu : statistics_mean values = c).
  { unfold statistics_mean. rewrite (Rsum_constant c values Hc). field. lra. }
  assert (Hsd : statistics_stdev values = 0).
  { unfold statistics_stdev. rewrite Hmu.
    rewrite (Rsum_constant 0 (map (fun x => (x - c) * (x - c)) values)).
    - unfold Rdiv. rewrite Rmult_0_r, Rmult_0_l. apply sqrt_0.
    - apply Forall_map. eapply Forall_impl; [| exact Hc].
      intros x ->. ring. }
  rewrite Hmean, Hlo, Hhi, Hmu, Hsd. unfold Rdiv.
  rewrite Rmult_0_l, Rmult_0_r. repeat split; ring.
Qed.

Lemma mean_ci_constant_witness :
  exists m, mean_ci [250; 250; 250] 0.05 = Ok m
            /\ (mean m = 250 /\ ci_low m = 250 /\ ci_high m = 250).
Proof.
  assert (Hlen : (2 <= List.length [250; 250; 250])%nat) by (simpl; lia).
  assert (Ha : valid_alpha 0.05) by (unfold valid_alpha; lra).
  destruct (mean_ci_fields [250; 250; 250] 0.05 Hlen Ha) as (m & zc & Hm & _).
  exists m. split; [exact Hm |].
  apply (mean_ci_constant 250 [250; 250; 250] 0.05 m Hm).
  repeat constructor.
Defined.

End MeanFacts.

(** * Further properties of guardrail_eval *)

Section GuardrailMoreFacts.

Import Guardrail.
Local Open Scope string_scope.
Local Open Scope float_scope.

(** Every message of a returned verdict ends in the tag of that verdict,
    PASS for [true] and FAIL for [false], except the two zero-baseline
    messages, which always come with [passed = false]. *)
Theorem guardrail_message_agrees :
  forall (baseline_value treatment_value : float) (rule : rule_dict)
         (passed : bool) (msg : message),
    guardrail_eval baseline_value treatment_value rule = Ok (passed, msg) ->
    (passed = false /\ (msg = no_drop_msg \/ msg = no_increase_msg))
    \/ (List.length msg = 10%nat /\ last msg (Lit "") = tag passed).
Proof.
  intros b t rule passed msg H.
  destruct rule as [| kv rule]; [discriminate H |].
  unfold guardrail_eval in H.
  destruct (scan (kv :: rule)) as [[[] |] [| thr]]; try discriminate H;
    try (destruct (b =? 0);
         [injection H as <- <-; left; split; [reflexivity | auto] |]);
    injection H as <- <-; right; split; reflexivity.
Qed.

Lemma guardrail_message_agrees_witness :
  (true = false /\
   ([Lit "Drop of "; Fixed 3 0.25; Lit "pp (baseline: "; Fixed 3 0.5;
     Lit ", treatment: "; Fixed 3 0.25; Lit "). Threshold: "; Plain 0.25;
     Lit "pp. "; Lit "PASS"] = no_drop_msg
    \/ [Lit "Drop of "; Fixed 3 0.25; Lit "pp (baseline: "; Fixed 3 0.5;
        Lit ", treatment: "; Fixed 3 0.25; Lit "). Threshold: "; Plain 0.25;
        Lit "pp. "; Lit "PASS"] = no_increase_msg))
  \/ (List.length
        [Lit "Drop of "; Fixed 3 0.25; Lit "pp (baseline: "; Fixed 3 0.5;
         Lit ", treatment: "; Fixed 3 0.25; Lit "). Threshold: "; Plain 0.25;
         Lit "pp. "; Lit "PASS"] = 10%nat
      /\ last [Lit "Drop of "; Fixed 3 0.25; Lit "pp (baseline: "; Fixed 3 0.5;
               Lit ", treatment: "; Fixed 3 0.25; Lit "). Threshold: ";
               Plain 0.25; Lit "pp. "; Lit "PASS"] (Lit "") = tag true).
Proof.
  apply (guardrail_message_agrees 0.5 0.25 [("max_drop_pp", PyNum 0.25)]).
  reflexivity.
Defined.

(** A drop guardrail is an increase guardrail with the two values
    exchanged, and the pp and ms increase rules give the same verdict:
    for one threshold, [max_drop_pp] on (baseline, treatment),
    [max_increase_pp] on (treatment, baseline) and [max_increase_ms] on
    (treatment, baseline) all return the same [passed]. *)
Theorem guardrail_drop_increase_mirror :
  forall (baseline_value treatment_value threshold : float)
         (drop_rule pp_rule ms_rule : rule_dict),
    scan drop_rule = (Some drop_pp, PyNum threshold) ->
    scan pp_rule = (Some increase_pp, PyNum threshold) ->
    scan ms_rule = (Some increase_ms, PyNum threshold) ->
    passed_of (guardrail_eval treatment_value baseline_value pp_rule)
    = passed_of (guardrail_eval baseline_value treatment_value drop_rule)
    /\ passed_of (guardrail_eval treatment_value baseline_value ms_rule)
       = passed_of (guardrail_eval baseline_value treatment_value drop_rule)
    /\ passed_of (guardrail_eval baseline_value treatment_value drop_rule)
       = Some (baseline_value - treatment_value <=? threshold).
Proof.
  intros b t thr dr pr mr Hd Hp Hm.
  destruct dr as [| d dr]; [discriminate Hd |].
  destruct pr as [| p pr]; [discriminate Hp |].
  destruct mr as [| m mr]; [discriminate Hm |].
  unfold guardrail_eval. rewrite Hd, Hp, Hm. repeat split.
Qed.

Lemma guardrail_drop_increase_mirror_witness :
  passed_of (guardrail_eval 0.91 0.92 [("max_increase_pp", PyNum 0.3)])
  = passed_of (guardrail_eval 0.92 0.91 [("max_drop_pp", PyNum 0.3)])
  /\ passed_of (guardrail_eval 0.91 0.92 [("max_increase_ms", PyNum 0.3)])
     = passed_of (guardrail_eval 0.92 0.91 [("max_drop_pp", PyNum 0.3)])
  /\ passed_of (guardrail_eval 0.92 0.91 [("max_drop_pp", PyNum 0.3)])
     = Some (0.92 - 0.91 <=? 0.3).
Proof.
  apply (guardrail_drop_increase_mirror 0.92 0.91 0.3
           [("max_drop_pp", PyNum 0.3)] [("max_increase_pp", PyNum 0.3)]
           [("max_increase_ms", PyNum 0.3)]); reflexivity.
Defined.

(** NaN in the binary64 specification. *)
Lemma SFcompare_refl (s : spec_float) :
  s <> S754_nan -> SFcompare s s = Some Eq.
Proof.
  destruct s as [sg | sg | | sg m e]; intros Hs; simpl.
  - reflexivity.
  - now destruct sg.
  - congruence.
  - destruct sg; rewrite Z.compare_refl.
    + f_equal. rewrite Pos.compare_cont_refl. reflexivity.
    + f_equal. apply Pos.compare_cont_refl.
Qed.

Lemma is_nan_spec (x : float) : is_nan x = true -> Prim2SF x = S754_nan.
Proof.
  unfold is_nan. rewrite FloatAxioms.eqb_spec. unfold SFeqb. intros H.
  destruct (Prim2SF x) as [sg | sg | | sg m e] eqn:Hx; [| | reflexivity |];
    rewrite SFcompare_refl in H by discriminate; discriminate H.
Qed.

Lemma nan_sub (x y : float) :
  Prim2SF x = S754_nan \/ Prim2SF y = S754_nan ->
  Prim2SF (x - y) = S754_nan.
Proof.
  rewrite FloatAxioms.sub_spec. unfold SF64sub. intros [H | H]; rewrite H.
  - reflexivity.
  - now destruct (Prim2SF x).
Qed.

Lemma nan_div (x y : float) :
  Prim2SF x = S754_nan \/ Prim2SF y = S754_nan ->
  Prim2SF (x / y) = S754_nan.
Proof.
  rewrite FloatAxioms.div_spec. unfold SF64div. intros [H | H]; rewrite H.
  - reflexivity.
  - now destruct (Prim2SF x).
Qed.

Lemma nan_mul (x y : float) :
  Prim2SF x = S754_nan \/ Prim2SF y = S754_nan ->
  Prim2SF (x * y) = S754_nan.
Proof.
  rewrite FloatAxioms.mul_spec. unfold SF64mul. intros [H | H]; rewrite H.
  - reflexivity.
  - now destruct (Prim2SF x).
Qed.

Lemma nan_leb (x y : float) :
  Prim2SF x = S754_nan \/ Prim2SF y = S754_nan -> (x <=? y) = false.
Proof.
  rewrite FloatAxioms.leb_spec. unfold SFleb. intros [H | H]; rewrite H.
  - reflexivity.
  - now destruct (Prim2SF x).
Qed.

(** The guardrail fails closed on NaN: whatever the rule kind, when the
    baseline, the treatment value or the threshold is NaN,
    [guardrail_eval] returns (it does not raise) with [passed = false]. *)
Theorem guardrail_nan_fails :
  forall (baseline_value treatment_value threshold : float)
         (rule : rule_dict) (kind : rule_type),
    scan rule = (Some kind, PyNum threshold) ->
    is_nan baseline_value || is_nan treatment_value || is_nan threshold = true ->
    passed_of (guardrail_eval baseline_value treatment_value rule) = Some false.
Proof.
  intros b t thr rule kind Hs Hnan.
  assert (Hd : forall x y, Prim2SF x = S754_nan \/ Prim2SF y = S754_nan \/
                           Prim2SF thr = S754_nan ->
               (x - y <=? thr) = false).
  { intros x y [H | [H | H]]; apply nan_leb;
      [left; apply nan_sub; now left | left; apply nan_sub; now right
       | now right]. }
  assert (Hp : forall x y, Prim2SF x = S754_nan \/ Prim2SF y = S754_nan \/
                           Prim2SF thr = S754_nan ->
               ((x - y) / b * 100 <=? thr) = false).
  { intros x y [H | [H | H]]; apply nan_leb;
      [left; apply nan_mul; left; apply nan_div; left; apply nan_sub; now left
       | left; apply nan_mul; left; apply nan_div; left; apply nan_sub; now right
       | now right]. }
  assert (Hcases : Prim2SF b = S754_nan \/ Prim2SF t = S754_nan
                   \/ Prim2SF thr = S754_nan).
  { apply orb_true_iff in Hnan. destruct Hnan as [Hnan | Hnan];
      [apply orb_true_iff in Hnan; destruct Hnan |]; auto using is_nan_spec. }
  destruct rule as [| kv rule]; [discriminate Hs |].
  unfold guardrail_eval. rewrite Hs.
  destruct kind; try (destruct (b =? 0); [reflexivity |]); simpl; f_equal.
  - apply Hd. tauto.
  - apply Hp. tauto.
  - apply Hd. tauto.
  - apply Hd. tauto.
  - apply Hp. tauto.
Qed.

Lemma guardrail_nan_fails_witness :
  passed_of (guardrail_eval nan 0.9 [("max_drop_pct", PyNum 1)]) = Some false.
Proof.
  apply (guardrail_nan_fails nan 0.9 1 [("max_drop_pct", PyNum 1)] drop_pct);
    reflexivity.
Defined.

End GuardrailMoreFacts.

(** * Further properties of the sensitivity grid *)

Section CcrMoreFacts.

Import Stats Sensitivity.
Local Open Scope string_scope.
Context {EF : ErrorFunction}.

Lemma two_proportion_test_ok_inv (sa ta sb tb : Z) (alpha : R) (r : PT.t) :
  two_proportion_test sa ta sb tb alpha = Ok r ->
  valid_arm sa ta /\ valid_arm sb tb /\ valid_alpha alpha.
Proof.
  unfold two_proportion_test.
  destruct ((ta <=? 0) || (tb <=? 0))%Z eqn:H1; [discriminate |].
  destruct ((sa <? 0) || (sb <? 0))%Z eqn:H2; [discriminate |].
  destruct ((sa >? ta) || (sb >? tb))%Z eqn:H3; [discriminate |].
  destruct (negb (Rltb 0 alpha && Rltb alpha 1)) eqn:H4; [discriminate |].
  intros _. apply orb_false_iff in H1, H2, H3. destruct H1, H2, H3.
  split; [now apply validation_fails |].
  split; [now apply validation_fails | now apply alpha_fails].
Qed.

Lemma two_proportion_test_ok_range (sa ta sb tb : Z) (alpha : R) (r : PT.t) :
  two_proportion_test sa ta sb tb alpha = Ok r ->
  (0 <= PT.p_value r <= 1)%R.
Proof.
  intros Hr. destruct (two_proportion_test_ok_inv _ _ _ _ _ _ Hr) as (Ha & Hb & Hal).
  destruct (two_proportion_test_returns sa ta sb tb alpha Ha Hb Hal)
    as (r' & Hr' & _ & Hp).
  assert (r' = r) by congruence. subst r'. rewrite Hp.
  apply (two_tailed_range (z_statistic sa ta sb tb)).
Qed.

Lemma test_completed_range (q : query_outcome) (alpha : R) (res : PT.t) :
  test_completed q alpha = Some res -> (0 <= PT.p_value res <= 1)%R.
Proof.
  unfold test_completed. destruct q as [| rows]; [discriminate |].
  destruct (List.length rows <? 2)%nat; [discriminate |].
  destruct (first_variant "control" rows) as [c | e]; [| discriminate].
  destruct (first_variant "treatment" rows) as [t | e]; [| discriminate].
  destruct (two_proportion_test (snd c) (snd (fst c)) (snd t) (snd (fst t)) alpha)
    as [r | e] eqn:Hr; [| discriminate].
  intros H. injection H as <-. eapply two_proportion_test_ok_range. exact Hr.
Qed.

(** Whatever the warehouse returns and whatever alpha is, the p-value
    reported by [run_ccr_test] lies in [[0, 1]], and a detection is
    reported only when alpha is in (0, 1), the statistical test ran to
    completion on the fetched rows, and its p-value, the one reported, is
    below alpha. *)
Theorem run_ccr_test_sound :
  forall (q : query_outcome) (alpha : R),
    (0 <= snd (run_ccr_test q alpha) <= 1)%R
    /\ (fst (run_ccr_test q alpha) = true ->
        valid_alpha alpha
        /\ (snd (run_ccr_test q alpha) < alpha)%R
        /\ exists res, test_completed q alpha = Some res
                       /\ PT.p_value res = snd (run_ccr_test q alpha)).
Proof.
  intros q alpha. pose proof (run_ccr_test_cases q alpha) as H.
  destruct (test_completed q alpha) as [res |] eqn:Hc; rewrite H; simpl.
  - split; [eapply test_completed_range; eassumption |].
    intros Hd. split; [eapply test_completed_valid_alpha; eassumption |].
    split; [now apply Rltb_true |]. exists res. split; reflexivity.
  - split; [lra | discriminate].
Qed.

End CcrMoreFacts.

Section GridMoreFacts.

Import Stats Sensitivity.
Context {EF : ErrorFunction}.
Variable run_simulation : Z -> Z -> Z -> Q -> Z -> Z -> bool.
Variable build_warehouse : Z -> Z -> bool.
Variable warehouse_query : Z -> Z -> query_outcome.
Variables (base_date days repeats seed : Z) (alpha : R).

Local Abbreviation grid_run users_list uplifts_list :=
  (run_sensitivity_grid_state run_simulation build_warehouse warehouse_query
     base_date days users_list uplifts_list repeats seed alpha).
Local Abbreviation closed_results :=
  (grid_results run_simulation build_warehouse warehouse_query
     base_date days repeats seed alpha).
Local Abbreviation closed_count :=
  (detected_count run_simulation build_warehouse warehouse_query
     base_date days seed alpha).
Local Abbreviation detected_at users uplift :=
  (trial_detected run_simulation build_warehouse warehouse_query
     base_date days users uplift seed alpha).

Lemma grid_run_closed (users_list : list Z) (uplifts_list : list Q) :
  results (grid_run users_list uplifts_list)
    = closed_results 0%Z (list_prod users_list uplifts_list)
  /\ trace (grid_run users_list uplifts_list)
     = grid_trace base_date repeats seed 0 (list_prod users_list uplifts_list).
Proof.
  unfold run_sensitivity_grid_state. rewrite outer_loop_spec. split; reflexivity.
Qed.

(** The grid point a record reports. *)
Definition res_point (r : grid_result) : Z * Q :=
  (res_users_per_day r, res_uplift r).

Lemma grid_results_points (points : list (Z * Q)) (rc : Z) :
  map res_point (closed_results rc points) = points
  /\ Forall (fun r => res_repeats r = repeats /\ res_alpha r = alpha)
            (closed_results rc points).
Proof.
  revert rc. induction points as [| [u upl] ps IH]; intros rc.
  - split; [reflexivity | constructor].
  - destruct (IH (rc + Z.of_nat (Z.to_nat repeats))%Z) as [IH1 IH2].
    cbn [grid_results map]. rewrite IH1. split; [reflexivity |].
    constructor; [split; reflexivity | exact IH2].
Qed.

Lemma list_prod_nil {A B : Type} (l : list A) (l' : list B) :
  list_prod l l' = [] <-> l = [] \/ l' = [].
Proof.
  split.
  - intros H. apply (f_equal (@List.length _)) in H.
    rewrite length_prod in H. simpl in H.
    destruct l; [now left |]. destruct l'; [now right |]. simpl in H. lia.
  - intros [-> | ->]; [reflexivity |].
    induction l as [| a l IH]; [reflexivity | simpl; exact IH].
Qed.



Lemma grid_trace_no_repeats (points : list (Z * Q)) (rc : Z) :
  (repeats <= 0)%Z -> grid_trace base_date repeats seed rc points = [].
Proof.
  intros Hrep. assert (Hn : Z.to_nat repeats = 0%nat) by lia.
  revert rc. induction points as [| p ps IH]; intros rc.
  - reflexivity.
  - cbn [grid_trace]. rewrite Hn at 1. simpl. apply IH.
Qed.

Lemma grid_results_no_repeats (points : list (Z * Q)) (rc : Z) :
  (repeats <= 0)%Z ->
  Forall (fun r => res_detections r = 0%Z /\ res_detection_rate r = 0%R)
         (closed_results rc points).
Proof.
  intros Hrep. assert (Hn : Z.to_nat repeats = 0%nat) by lia.
  revert rc. induction points as [| p ps IH]; intros rc.
  - constructor.
  - cbn [grid_results]. constructor; [| apply IH].
    unfold point_result. cbn [res_detections res_detection_rate].
    rewrite Hn. split; [reflexivity |].
    assert (Hgt : (repeats >? 0)%Z = false)
      by (rewrite Z.gtb_ltb; apply Z.ltb_ge; lia).
    rewrite Hgt. reflexivity.
Qed.


Lemma map_constant_repeat {A B : Type} (f : A -> B) (b : B) (l : list A) :
  (forall a, f a = b) -> map f l = repeat b (List.length l).
Proof.
  intros Hf. induction l as [| a l IH]; [reflexivity |].
  simpl. now rewrite Hf, IH.
Qed.

(** The grid point a trial was started for. *)
Definition trial_point (t : trial) : Z * Q := (trial_users t, trial_uplift t).

(** The trials are started grid point by grid point, [repeats] in a row
    (none for a non-positive [repeats]) with that point's users and
    uplift, whether or not earlier trials failed: a failed trial is not
    retried, and does not shift the trials of the next point. *)
Theorem grid_trials_per_point :
  forall (users_list : list Z) (uplifts_list : list Q),
    map trial_point (trace (grid_run users_list uplifts_list))
    = flat_map (fun p => repeat p (Z.to_nat repeats))
               (list_prod users_list uplifts_list).
Proof.
  intros users_list uplifts_list.
  destruct (grid_run_closed users_list uplifts_list) as [_ ->].
  assert (Hall : forall points rc,
            map trial_point (grid_trace base_date repeats seed rc points)
            = flat_map (fun p => repeat p (Z.to_nat repeats)) points);
    [| apply Hall].
  induction points as [| [u upl] ps IH]; intros rc.
  - reflexivity.
  - cbn [grid_trace flat_map fst snd]. rewrite map_app, IH, map_map. f_equal.
    rewrite (map_constant_repeat _ (u, upl)) by reflexivity.
    unfold runs_from. now rewrite length_map, length_seq.
Qed.

End GridMoreFacts.

(** ** main of sensitivity.py, up to the point where it writes *)

Module SensitivityMain.

Import Stats Sensitivity.
Local Open Scope string_scope.

(** The parsed command line: [None] for an option that was not given. *)
Record args : Type := {
  arg_preset : option string;
  arg_start : option string;
  arg_days : option Z;
  arg_users : option (list Z);
  arg_uplifts : option (list Q);
  arg_repeats : option Z;
  arg_seed : option Z;
  arg_alpha : option R;
  arg_power_target : option R;
  arg_output : option string
}.

(** The preset dictionary, read with [preset_config.get(key)]: [None] for
    a missing key. *)
Record preset_config : Type := {
  cfg_days : option Z;
  cfg_users_per_day : option (list Z);
  cfg_uplifts : option (list Q);
  cfg_repeats : option Z;
  cfg_seed : option Z;
  cfg_alpha : option R;
  cfg_power_target : option R
}.

(** [preset_config = {}] *)
Definition no_preset : preset_config :=
  {| cfg_days := None; cfg_users_per_day := None; cfg_uplifts := None;
     cfg_repeats := None; cfg_seed := None; cfg_alpha := None;
     cfg_power_target := None |}.

(** [d.get(key, default)] *)
Definition get {A : Type} (entry : option A) (default : A) : A :=
  match entry with Some v => v | None => default end.

(** [a if a is not None else b] *)
Definition if_given {A : Type} (a : option A) (b : A) : A :=
  match a with Some v => v | None => b end.

Record run_config : Type := {
  start_date : option string;
  days : Z;
  users_list : option (list Z);
  uplifts_list : option (list Q);
  repeats : Z;
  seed : Z;
  alpha : R;
  power_target : option R;
  output : string
}.

(** "Apply preset defaults, allow CLI args to override". *)
Definition resolve (a : args) (preset : preset_config) : run_config :=
  {| start_date := match arg_start a with Some s => Some s | None => None end;
     days := if_given (arg_days a) (get (cfg_days preset) 1%Z);
     users_list :=
       match arg_users a with
       | Some u => Some u
       | None => cfg_users_per_day preset
       end;
     uplifts_list :=
       match arg_uplifts a with
       | Some u => Some u
       | None => cfg_uplifts preset
       end;
     repeats := if_given (arg_repeats a) (get (cfg_repeats preset) 10%Z);
     seed := if_given (arg_seed a) (get (cfg_seed preset) 7%Z);
     alpha := if_given (arg_alpha a) (get (cfg_alpha preset) 0.05%R);
     power_target :=
       match arg_power_target a with
       | Some t => Some t
       | None => cfg_power_target preset
       end;
     output := if_given (arg_output a) "reports/results/sensitivity_summary.csv" |}.

(** Why [main] returned 1 before writing anything. *)
Inductive exit_reason : Type :=
| PresetFailed
| StartMissing
| RepeatsBelowOne
| UsersEmpty
| UpliftsEmpty
| RunRaised
| NoResults.

(** [main] either returns 1 for one of the reasons above, or reaches
    [write_results] with the results, the metadata and the output path
    (it then returns 0, unless writing raises or the run is interrupted). *)
Inductive progress : Type :=
| Exit (why : exit_reason)
| Writing (results : list grid_result) (meta : metadata) (path : string).


Section WithEnvironment.
Context {EF : ErrorFunction}.

(** The environment: [load_preset] ([None] when it raises),
    [datetime.fromisoformat] on the start date ([None] when it raises),
    the clock, the git hash, and the collaborators of the grid. *)
Variable load_preset : string -> option preset_config.
Variable fromisoformat : string -> option Z.
Variable utcnow : string.
Variable git_hash : option string.
Variable run_simulation : Z -> Z -> Z -> Q -> Z -> Z -> bool.
Variable build_warehouse : Z -> Z -> bool.
Variable warehouse_query : Z -> Z -> query_outcome.

(** [if args.preset: try: preset_config = load_preset(args.preset)] *)
Definition loaded_preset (a : args) : option preset_config :=
  match arg_preset a with
  | Some name => if String.eqb name "" then Some no_preset else load_preset name
  | None => Some no_preset
  end.

Definition main (a : args) : progress :=
  match loaded_preset a with
  | None => Exit PresetFailed
  | Some preset =>
    let c := resolve a preset in
    match start_date c with
    | None => Exit StartMissing
    | Some start =>
      if (repeats c <? 1)%Z then Exit RepeatsBelowOne
      else
        match users_list c with
        | None | Some [] => Exit UsersEmpty
        | Some users =>
          match uplifts_list c with
          | None | Some [] => Exit UpliftsEmpty
          | Some uplifts =>
            match fromisoformat start with
            | None => Exit RunRaised
            | Some base_date =>
              let results :=
                run_sensitivity_grid run_simulation build_warehouse
                  warehouse_query base_date (days c) users uplifts
                  (repeats c) (seed c) (alpha c) in
              match results with
              | [] => Exit NoResults
              | _ :: _ =>
                Writing results
                  (create_metadata utcnow git_hash users uplifts
                     (repeats c) (alpha c) (power_target c))
                  (output c)
              end
            end
          end
        end
    end
  end.

End WithEnvironment.

End SensitivityMain.

Section MainFacts.

Import Stats Sensitivity SensitivityMain.
Local Open Scope string_scope.
Context {EF : ErrorFunction}.
Variable load_preset : string -> option preset_config.
Variable fromisoformat : string -> option Z.
Variable utcnow : string.
Variable git_hash : option string.
Variable run_simulation : Z -> Z -> Z -> Q -> Z -> Z -> bool.
Variable build_warehouse : Z -> Z -> bool.
Variable warehouse_query : Z -> Z -> query_outcome.

Local Abbreviation main_of :=
  (main load_preset fromisoformat utcnow git_hash run_simulation
     build_warehouse warehouse_query).
Local Abbreviation grid_of base c users uplifts :=
  (run_sensitivity_grid run_simulation build_warehouse warehouse_query
     base (days c) users uplifts (repeats c) (seed c) (alpha c)).




End MainFacts.

(** ** compute_ccr_summary (save_results.py) *)

Module CcrSummary.

Import Stats.
Local Open Scope string_scope.
Local Open Scope R_scope.





(** How a call ends: it returns, it raises the [ValueError] of the
    statistical test, or a dictionary lookup raises [KeyError]. *)
Inductive outcome (A : Type) : Type :=
| Returned (a : A)
| Raised (e : exn)
| KeyError (key : string).

Arguments Returned {A} a.
Arguments Raised {A} e.
Arguments KeyError {A} key.

Section WithErf.
Context {EF : ErrorFunction}.


End WithErf.

End CcrSummary.

Section CcrSummaryFacts.

Import Stats CcrSummary.
Local Open Scope string_scope.
Local Open Scope R_scope.
Context {EF : ErrorFunction}.



End CcrSummaryFacts.



(** A command line with a start date and no preset, the users and
    uplifts given, every simulation failing: [main] takes the defaults
    [repeats = 10], [seed = 7] and reaches [write_results] with one record
    per grid point. *)
Example main_reaches_writing :
  let a := {| SensitivityMain.arg_preset := None;
              SensitivityMain.arg_start := Some "2025-02-01"%string;
              SensitivityMain.arg_days := None;
              SensitivityMain.arg_users := Some [1000; 2000]%Z;
              SensitivityMain.arg_uplifts := Some [0%Q];
              SensitivityMain.arg_repeats := None;
              SensitivityMain.arg_seed := None;
              SensitivityMain.arg_alpha := None;
              SensitivityMain.arg_power_target := None;
              SensitivityMain.arg_output := None |} in
  exists rs m,
    @SensitivityMain.main ratio_erf (fun _ => None) (fun _ => Some 739283%Z)
      "2025-02-01T00:00:00" None failing_simulation build_ok tied_query a
    = SensitivityMain.Writing rs m "reports/results/sensitivity_summary.csv"
    /\ map Sensitivity.res_repeats rs = [10; 10]%Z
    /\ Sensitivity.total_simulations m = 20%Z.
Proof. do 2 eexists. repeat split. Qed.

(** ** Significance level and interval width *)

Section AlphaFacts.

Import Stats.
Local Open Scope R_scope.

Lemma z_critical_05 : z_critical 0.05 = Ok 1.96.
Proof.
  unfold z_critical, Reqb. destruct (Req_dec_T 0.05 0.05); congruence.
Qed.

Lemma z_critical_01 : z_critical 0.01 = Ok 2.576.
Proof.
  unfold z_critical, Reqb.
  destruct (Req_dec_T 0.01 0.05) as [H | _]; [lra |].
  rewrite inverse_normal_cdf_lower by lra. unfold lower_quantile.
  assert (H1 : Rltb (Rabs (0.01 / 2 - 0.025)) 1e-6 = false).
  { apply Rltb_false. rewrite Rabs_left; lra. }
  assert (H2 : Rltb (Rabs (0.01 / 2 - 0.005)) 1e-6 = true).
  { apply Rltb_true. replace (0.01 / 2 - 0.005) with 0 by lra.
    rewrite Rabs_R0. lra. }
  rewrite H1, H2. simpl. f_equal. rewrite Rabs_left; lra.
Qed.

End AlphaFacts.



(** * Properties of the results that are returned

    The statistics functions are read over the real numbers above. The
    properties of this part are stated of a call that returns, and are of
    the kind that rounding keeps: bounds, orderings, values computed by
    the same expression. When the call returns is a question of the
    binary64 code (see [Binary64] below). *)

Section ReturnedFacts.

Import Stats.
Local Open Scope R_scope.
Context {EF : ErrorFunction}.

Lemma proportion_ci_ok_inv (s t : Z) (alpha : R) (c : CI.t) :
  proportion_ci s t alpha = Ok c -> valid_arm s t /\ valid_alpha alpha.
Proof.
  unfold proportion_ci.
  destruct (t <=? 0)%Z eqn:H1; [discriminate |].
  destruct (s <? 0)%Z eqn:H2; [discriminate |].
  destruct (s >? t)%Z eqn:H3; [discriminate |].
  destruct (negb (Rltb 0 alpha && Rltb alpha 1)) eqn:H4; [discriminate |].
  intros _. split; [now apply validation_fails | now apply alpha_fails].
Qed.

Lemma two_proportion_test_ok_fields (sa ta sb tb : Z) (alpha : R) (r : PT.t) :
  two_proportion_test sa ta sb tb alpha = Ok r ->
  valid_arm sa ta /\ valid_arm sb tb /\ valid_alpha alpha
  /\ exists zc,
       0 <= zc
       /\ PT.p_value r =
          2 * (1 - 0.5 * (1 + erf (Rabs (z_statistic sa ta sb tb) / sqrt 2)))
       /\ PT.effect_abs r = IZR sb / IZR tb - IZR sa / IZR ta
       /\ PT.effect_rel r =
            (if Rltb 0 (IZR sa / IZR ta)
             then Finite ((IZR sb / IZR tb - IZR sa / IZR ta) / (IZR sa / IZR ta))
             else Infinity)
       /\ PT.ci_low r =
            PT.effect_abs r
            - zc * sqrt (IZR sa / IZR ta * (1 - IZR sa / IZR ta) / IZR ta
                         + IZR sb / IZR tb * (1 - IZR sb / IZR tb) / IZR tb)
       /\ PT.ci_high r =
            PT.effect_abs r
            + zc * sqrt (IZR sa / IZR ta * (1 - IZR sa / IZR ta) / IZR ta
                         + IZR sb / IZR tb * (1 - IZR sb / IZR tb) / IZR tb).
Proof.
  intros Hr.
  destruct (two_proportion_test_ok_inv _ _ _ _ _ _ Hr) as (Ha & Hb & Hal).
  repeat (split; [assumption |]).
  destruct (two_proportion_test_returns sa ta sb tb alpha Ha Hb Hal)
    as (r1 & Hr1 & _ & Hp).
  destruct (two_proportion_test_fields sa ta sb tb alpha Ha Hb Hal)
    as (r2 & zc & Hr2 & _ & Hzc & He & Hrel & Hlo & Hhi).
  assert (r1 = r) by congruence. assert (r2 = r) by congruence. subst r1 r2.
  exists zc. repeat split; assumption.
Qed.


(** C2 (amended): whenever [two_proportion_test] returns, the call with
    the two arms exchanged returns as well, with [effect_abs] negated and
    [p_value] unchanged. *)
Theorem two_proportion_test_swap :
  forall (successes_a total_a successes_b total_b : Z) (alpha : R) (r : PT.t),
    two_proportion_test successes_a total_a successes_b total_b alpha = Ok r ->
    exists r',
      two_proportion_test successes_b total_b successes_a total_a alpha = Ok r'
      /\ PT.effect_abs r' = - PT.effect_abs r
      /\ PT.p_value r' = PT.p_value r.
Proof.
  intros sa ta sb tb alpha r Hr.
  destruct (two_proportion_test_ok_fields _ _ _ _ _ _ Hr)
    as (Ha & Hb & Hal & zc & _ & Hp & He & _).
  destruct (two_proportion_test_returns sb tb sa ta alpha Hb Ha Hal)
    as (r' & Hr' & He' & Hp').
  exists r'. split; [assumption |]. split.
  - rewrite He, He'. ring.
  - rewrite Hp, Hp', z_statistic_swap, Rabs_Ropp. reflexivity.
Qed.

(** C3 (amended): whenever [proportion_ci] returns, its result satisfies
    [0 <= ci_low <= rate <= ci_high <= 1]. *)
Theorem proportion_ci_bounds :
  forall (successes total : Z) (alpha : R) (c : CI.t),
    proportion_ci successes total alpha = Ok c ->
    0 <= CI.ci_low c <= CI.rate c /\ CI.rate c <= CI.ci_high c <= 1.
Proof.
  intros s t alpha c Hc.
  destruct (proportion_ci_ok_inv _ _ _ _ Hc) as [Harm Ha].
  destruct (proportion_ci_fields s t alpha Harm Ha)
    as (c' & zc & Hc' & _ & Hzc & Hr & Hlo & Hhi).
  assert (c' = c) by congruence. subst c'.
  pose proof (rate_bounds s t Harm) as Hrate.
  rewrite Hr, Hlo, Hhi.
  set (rate := IZR s / IZR t) in *.
  set (se := sqrt (rate * (1 - rate) / IZR t)).
  assert (Hse : 0 <= zc * se) by (apply Rmult_le_pos; [lra | apply sqrt_pos]).
  repeat split.
  - apply Rmax_l.
  - apply Rmax_lub; lra.
  - apply Rmin_glb; lra.
  - apply Rmin_l.
Qed.

(** [two_proportion_test] raises the error of the first check that
    fails, in the order totals, negative successes, successes above the
    total, alpha; and it returns only on input that passes all four. *)
Theorem two_proportion_test_validation :
  forall (successes_a total_a successes_b total_b : Z) (alpha : R),
    let call :=
      two_proportion_test successes_a total_a successes_b total_b alpha in
    ((total_a <= 0 \/ total_b <= 0)%Z ->
     call = Raise (ValueError "Total observations must be positive"))
    /\ ((0 < total_a /\ 0 < total_b)%Z ->
        (successes_a < 0 \/ successes_b < 0)%Z ->
        call = Raise (ValueError "Successes cannot be negative"))
    /\ ((0 < total_a /\ 0 < total_b)%Z ->
        (0 <= successes_a /\ 0 <= successes_b)%Z ->
        (total_a < successes_a \/ total_b < successes_b)%Z ->
        call = Raise (ValueError "Successes cannot exceed total observations"))
    /\ (valid_arm successes_a total_a -> valid_arm successes_b total_b ->
        ~ valid_alpha alpha ->
        call = Raise (ValueError "Alpha must be between 0 and 1"))
    /\ (forall r, call = Ok r ->
          valid_arm successes_a total_a /\ valid_arm successes_b total_b
          /\ valid_alpha alpha).
Proof.
  intros sa ta sb tb alpha call. unfold call.
  split; [| split; [| split; [| split]]];
    [unfold two_proportion_test .. |
     intros r Hr; eapply two_proportion_test_ok_inv; eassumption].
  - intros H.
    assert (Ht : ((ta <=? 0) || (tb <=? 0))%Z = true).
    { apply orb_true_iff. destruct H; [left | right]; now apply Z.leb_le. }
    now rewrite Ht.
  - intros [Ha Hb] H.
    assert (Ht : ((ta <=? 0) || (tb <=? 0))%Z = false).
    { apply orb_false_iff. split; apply Z.leb_gt; assumption. }
    assert (Hs : ((sa <? 0) || (sb <? 0))%Z = true).
    { apply orb_true_iff. destruct H; [left | right]; now apply Z.ltb_lt. }
    now rewrite Ht, Hs.
  - intros [Ha Hb] [Hsa Hsb] H.
    assert (Ht : ((ta <=? 0) || (tb <=? 0))%Z = false).
    { apply orb_false_iff. split; apply Z.leb_gt; assumption. }
    assert (Hs : ((sa <? 0) || (sb <? 0))%Z = false).
    { apply orb_false_iff. split; apply Z.ltb_ge; assumption. }
    assert (He : ((sa >? ta) || (sb >? tb))%Z = true).
    { apply orb_true_iff. rewrite !Z.gtb_ltb.
      destruct H; [left | right]; now apply Z.ltb_lt. }
    now rewrite Ht, Hs, He.
  - intros Ha Hb Hal.
    destruct (validation_passes sa ta Ha) as (A1 & A2 & A3).
    destruct (validation_passes sb tb Hb) as (B1 & B2 & B3).
    rewrite A1, A2, A3, B1, B2, B3. simpl.
    destruct (negb (Rltb 0 alpha && Rltb alpha 1)) eqn:H4; [reflexivity |].
    exfalso. apply Hal. now apply alpha_fails.
Qed.

(** The same for [proportion_ci]. *)
Theorem proportion_ci_validation :
  forall (successes total : Z) (alpha : R),
    let call := proportion_ci successes total alpha in
    ((total <= 0)%Z ->
     call = Raise (ValueError "Total observations must be positive"))
    /\ ((0 < total)%Z -> (successes < 0)%Z ->
        call = Raise (ValueError "Successes cannot be negative"))
    /\ ((0 < total)%Z -> (total < successes)%Z ->
        call = Raise (ValueError "Successes cannot exceed total observations"))
    /\ (valid_arm successes total -> ~ valid_alpha alpha ->
        call = Raise (ValueError "Alpha must be between 0 and 1"))
    /\ (forall c, call = Ok c -> valid_arm successes total /\ valid_alpha alpha).
Proof.
  intros s t alpha call. unfold call.
  split; [| split; [| split; [| split]]];
    [unfold proportion_ci .. |
     intros c Hc; eapply proportion_ci_ok_inv; eassumption].
  - intros H. apply Z.leb_le in H. now rewrite H.
  - intros Ht Hs. apply Z.leb_gt in Ht. apply Z.ltb_lt in Hs.
    now rewrite Ht, Hs.
  - intros Ht Hs. apply Z.leb_gt in Ht.
    assert (H2 : (s <? 0)%Z = false) by (apply Z.ltb_ge; lia).
    assert (H3 : (s >? t)%Z = true) by (rewrite Z.gtb_ltb; now apply Z.ltb_lt).
    now rewrite Ht, H2, H3.
  - intros Ha Hal. destruct (validation_passes s t Ha) as (V1 & V2 & V3).
    rewrite V1, V2, V3.
    destruct (negb (Rltb 0 alpha && Rltb alpha 1)) eqn:H4; [reflexivity |].
    exfalso. apply Hal. now apply alpha_fails.
Qed.

(** Whenever [two_proportion_test] returns, its confidence interval
    contains [effect_abs], and [effect_abs] lies in [[-1, 1]]. *)
Theorem two_proportion_test_ci_contains :
  forall (successes_a total_a successes_b total_b : Z) (alpha : R) (r : PT.t),
    two_proportion_test successes_a total_a successes_b total_b alpha = Ok r ->
    PT.ci_low r <= PT.effect_abs r <= PT.ci_high r
    /\ -1 <= PT.effect_abs r <= 1.
Proof.
  intros sa ta sb tb alpha r Hr.
  destruct (two_proportion_test_ok_fields _ _ _ _ _ _ Hr)
    as (Ha & Hb & _ & zc & Hzc & _ & He & _ & Hlo & Hhi).
  pose proof (rate_bounds _ _ Ha) as Hpa. pose proof (rate_bounds _ _ Hb) as Hpb.
  rewrite Hlo, Hhi.
  match goal with |- context [zc * sqrt ?x] =>
    assert (Hw : 0 <= zc * sqrt x) by (apply Rmult_le_pos; [lra | apply sqrt_pos]);
    set (w := zc * sqrt x) in *
  end.
  rewrite He. repeat split; lra.
Qed.

(** Whenever [two_proportion_test] returns for a group A without any
    success, [effect_rel] is [float("inf")], whatever group B shows: also
    when group B has no success either and [effect_abs] is 0. *)
Theorem two_proportion_test_effect_rel :
  forall (total_a successes_b total_b : Z) (alpha : R) (r : PT.t),
    two_proportion_test 0 total_a successes_b total_b alpha = Ok r ->
    PT.effect_rel r = Infinity.
Proof.
  intros ta sb tb alpha r Hr.
  destruct (two_proportion_test_ok_fields _ _ _ _ _ _ Hr)
    as (_ & _ & _ & zc & _ & _ & _ & Hrel & _).
  rewrite Hrel.
  assert (Hz : IZR 0 / IZR ta = 0) by (unfold Rdiv; apply Rmult_0_l).
  rewrite Hz.
  assert (Hlt : Rltb 0 0 = false) by (apply Rltb_false; lra).
  now rewrite Hlt.
Qed.

(** The significance level only shapes the confidence interval: when
    [two_proportion_test] returns for the same counts at two levels, the
    two results have the same [p_value], [effect_abs] and [effect_rel]. *)
Theorem two_proportion_test_alpha_independent :
  forall (successes_a total_a successes_b total_b : Z) (alpha alpha' : R)
         (r r' : PT.t),
    two_proportion_test successes_a total_a successes_b total_b alpha = Ok r ->
    two_proportion_test successes_a total_a successes_b total_b alpha' = Ok r' ->
    PT.p_value r' = PT.p_value r
    /\ PT.effect_abs r' = PT.effect_abs r
    /\ PT.effect_rel r' = PT.effect_rel r.
Proof.
  intros sa ta sb tb alpha alpha' r r' Hr Hr'.
  destruct (two_proportion_test_ok_fields _ _ _ _ _ _ Hr)
    as (_ & _ & _ & zc & _ & Hp & He & Hrel & _).
  destruct (two_proportion_test_ok_fields _ _ _ _ _ _ Hr')
    as (_ & _ & _ & zc' & _ & Hp' & He' & Hrel' & _).
  repeat split; congruence.
Qed.

(** The Wald interval collapses at the extremes: whenever
    [proportion_ci] returns for [successes = 0] the result is
    [rate = ci_low = ci_high = 0], and whenever it returns for
    [successes = total] the result is [rate = ci_low = ci_high = 1]. *)
Theorem proportion_ci_degenerate :
  forall (total : Z) (alpha : R) (c0 c1 : CI.t),
    proportion_ci 0 total alpha = Ok c0 ->
    proportion_ci total total alpha = Ok c1 ->
    (CI.rate c0 = 0 /\ CI.ci_low c0 = 0 /\ CI.ci_high c0 = 0)
    /\ (CI.rate c1 = 1 /\ CI.ci_low c1 = 1 /\ CI.ci_high c1 = 1).
Proof.
  intros t alpha c0 c1 H0 H1.
  destruct (proportion_ci_ok_inv _ _ _ _ H0) as [Ha0 Hal].
  destruct (proportion_ci_ok_inv _ _ _ _ H1) as [Ha1 _].
  assert (Ht' : 0 < IZR t) by (apply IZR_lt; apply Ha0).
  split.
  - destruct (proportion_ci_fields 0 t alpha Ha0 Hal)
      as (c & zc & Hc & _ & _ & Hr & Hlo & Hhi).
    assert (c = c0) by congruence. subst c.
    assert (Hz : IZR 0 / IZR t = 0) by (unfold Rdiv; apply Rmult_0_l).
    rewrite Hz in *.
    replace (0 * (1 - 0) / IZR t) with 0 in * by (unfold Rdiv; ring).
    rewrite sqrt_0, Rmult_0_r in *.
    rewrite Hr, Hlo, Hhi. repeat split.
    + rewrite Rminus_0_r. apply Rmax_left. lra.
    + rewrite Rplus_0_r. apply Rmin_right. lra.
  - destruct (proportion_ci_fields t t alpha Ha1 Hal)
      as (c & zc & Hc & _ & _ & Hr & Hlo & Hhi).
    assert (c = c1) by congruence. subst c.
    assert (Hz : IZR t / IZR t = 1) by (field; lra).
    rewrite Hz in *.
    replace (1 * (1 - 1) / IZR t) with 0 in * by (unfold Rdiv; ring).
    rewrite sqrt_0, Rmult_0_r in *.
    rewrite Hr, Hlo, Hhi. repeat split.
    + rewrite Rminus_0_r. apply Rmax_right. lra.
    + rewrite Rplus_0_r. apply Rmin_left. lra.
Qed.

(** For the same counts, whenever [proportion_ci] returns at alpha = 0.05
    (critical value 1.96) and at alpha = 0.01 (critical value 2.576, the
    tabulated constant), the two results report the same rate and the
    interval at 0.01 contains the interval at 0.05. *)
Theorem proportion_ci_nested :
  forall (successes total : Z) (c95 c99 : CI.t),
    proportion_ci successes total 0.05 = Ok c95 ->
    proportion_ci successes total 0.01 = Ok c99 ->
    CI.rate c99 = CI.rate c95
    /\ CI.ci_low c99 <= CI.ci_low c95
    /\ CI.ci_high c95 <= CI.ci_high c99.
Proof.
  intros s t c95 c99 H95 H99.
  destruct (proportion_ci_ok_inv _ _ _ _ H95) as [Harm H05].
  destruct (proportion_ci_ok_inv _ _ _ _ H99) as [_ H01].
  destruct (proportion_ci_fields s t 0.05 Harm H05)
    as (c & z95 & Hc & Hz95 & _ & Hr95 & Hlo95 & Hhi95).
  assert (c = c95) by congruence. subst c.
  destruct (proportion_ci_fields s t 0.01 Harm H01)
    as (c & z99 & Hc' & Hz99 & _ & Hr99 & Hlo99 & Hhi99).
  assert (c = c99) by congruence. subst c.
  rewrite z_critical_05 in Hz95. rewrite z_critical_01 in Hz99.
  injection Hz95 as <-. injection Hz99 as <-.
  rewrite Hr95, Hr99, Hlo95, Hlo99, Hhi95, Hhi99.
  set (rate := IZR s / IZR t).
  pose proof (sqrt_pos (rate * (1 - rate) / IZR t)) as Hse.
  set (se := sqrt (rate * (1 - rate) / IZR t)) in *.
  split; [reflexivity |]. split.
  - unfold Rmax.
    destruct (Rle_dec 0 (rate - 2.576 * se)), (Rle_dec 0 (rate - 1.96 * se)); nra.
  - unfold Rmin.
    destruct (Rle_dec 1 (rate + 1.96 * se)), (Rle_dec 1 (rate + 2.576 * se)); nra.
Qed.

End ReturnedFacts.

Section ReturnedWitnesses.

Import Stats.
Local Open Scope R_scope.

Lemma arm_100_1000 : valid_arm 100 1000.
Proof. unfold valid_arm. lia. Qed.

Lemma arm_120_1000 : valid_arm 120 1000.
Proof. unfold valid_arm. lia. Qed.

Lemma arm_350_1000 : valid_arm 350 1000.
Proof. unfold valid_arm. lia. Qed.

Lemma arm_0_1000 : valid_arm 0 1000.
Proof. unfold valid_arm. lia. Qed.

Lemma arm_1000_1000 : valid_arm 1000 1000.
Proof. unfold valid_arm. lia. Qed.

Lemma alpha_05 : valid_alpha 0.05.
Proof. unfold valid_alpha. lra. Qed.

Lemma alpha_01 : valid_alpha 0.01.
Proof. unfold valid_alpha. lra. Qed.


Lemma two_proportion_test_swap_witness :
  exists r,
    @two_proportion_test ratio_erf 100 1000 120 1000 0.05 = Ok r
    /\ exists r',
         @two_proportion_test ratio_erf 120 1000 100 1000 0.05 = Ok r'
         /\ PT.effect_abs r' = - PT.effect_abs r
         /\ PT.p_value r' = PT.p_value r.
Proof.
  destruct (@two_proportion_test_returns ratio_erf 100 1000 120 1000 0.05
              arm_100_1000 arm_120_1000 alpha_05) as (r & Hr & _).
  exists r. split; [exact Hr |].
  exact (@two_proportion_test_swap ratio_erf 100 1000 120 1000 0.05 r Hr).
Defined.

Lemma proportion_ci_bounds_witness :
  exists c,
    proportion_ci 350 1000 0.05 = Ok c
    /\ (0 <= CI.ci_low c <= CI.rate c /\ CI.rate c <= CI.ci_high c <= 1).
Proof.
  destruct (proportion_ci_fields 350 1000 0.05 arm_350_1000 alpha_05)
    as (c & zc & Hc & _).
  exists c. split; [exact Hc |].
  exact (proportion_ci_bounds 350 1000 0.05 c Hc).
Defined.

Lemma two_proportion_test_ci_contains_witness :
  exists r,
    @two_proportion_test ratio_erf 100 1000 120 1000 0.05 = Ok r
    /\ (PT.ci_low r <= PT.effect_abs r <= PT.ci_high r
        /\ -1 <= PT.effect_abs r <= 1).
Proof.
  destruct (@two_proportion_test_returns ratio_erf 100 1000 120 1000 0.05
              arm_100_1000 arm_120_1000 alpha_05) as (r & Hr & _).
  exists r. split; [exact Hr |].
  exact (@two_proportion_test_ci_contains ratio_erf 100 1000 120 1000 0.05 r Hr).
Defined.

Lemma two_proportion_test_effect_rel_witness :
  exists r,
    @two_proportion_test ratio_erf 0 1000 0 1000 0.05 = Ok r
    /\ PT.effect_abs r = 0
    /\ PT.effect_rel r = Infinity.
Proof.
  destruct (@two_proportion_test_returns ratio_erf 0 1000 0 1000 0.05
              arm_0_1000 arm_0_1000 alpha_05) as (r & Hr & He & _).
  exists r. split; [exact Hr |]. split.
  - rewrite He. unfold Rdiv. rewrite !Rmult_0_l. ring.
  - exact (@two_proportion_test_effect_rel ratio_erf 1000 0 1000 0.05 r Hr).
Defined.

Lemma two_proportion_test_alpha_independent_witness :
  exists r r',
    @two_proportion_test ratio_erf 100 1000 120 1000 0.05 = Ok r
    /\ @two_proportion_test ratio_erf 100 1000 120 1000 0.01 = Ok r'
    /\ (PT.p_value r' = PT.p_value r
        /\ PT.effect_abs r' = PT.effect_abs r
        /\ PT.effect_rel r' = PT.effect_rel r).
Proof.
  destruct (@two_proportion_test_returns ratio_erf 100 1000 120 1000 0.05
              arm_100_1000 arm_120_1000 alpha_05) as (r & Hr & _).
  destruct (@two_proportion_test_returns ratio_erf 100 1000 120 1000 0.01
              arm_100_1000 arm_120_1000 alpha_01) as (r' & Hr' & _).
  exists r, r'. split; [exact Hr |]. split; [exact Hr' |].
  exact (@two_proportion_test_alpha_independent ratio_erf
           100 1000 120 1000 0.05 0.01 r r' Hr Hr').
Defined.

Lemma proportion_ci_degenerate_witness :
  exists c0 c1,
    proportion_ci 0 1000 0.01 = Ok c0
    /\ proportion_ci 1000 1000 0.01 = Ok c1
    /\ ((CI.rate c0 = 0 /\ CI.ci_low c0 = 0 /\ CI.ci_high c0 = 0)
        /\ (CI.rate c1 = 1 /\ CI.ci_low c1 = 1 /\ CI.ci_high c1 = 1)).
Proof.
  destruct (proportion_ci_fields 0 1000 0.01 arm_0_1000 alpha_01)
    as (c0 & z0 & H0 & _).
  destruct (proportion_ci_fields 1000 1000 0.01 arm_1000_1000 alpha_01)
    as (c1 & z1 & H1 & _).
  exists c0, c1. split; [exact H0 |]. split; [exact H1 |].
  exact (proportion_ci_degenerate 1000 0.01 c0 c1 H0 H1).
Defined.

Lemma proportion_ci_nested_witness :
  exists c95 c99,
    proportion_ci 350 1000 0.05 = Ok c95
    /\ proportion_ci 350 1000 0.01 = Ok c99
    /\ (CI.rate c99 = CI.rate c95
        /\ CI.ci_low c99 <= CI.ci_low c95
        /\ CI.ci_high c95 <= CI.ci_high c99).
Proof.
  destruct (proportion_ci_fields 350 1000 0.05 arm_350_1000 alpha_05)
    as (c95 & z95 & H95 & _).
  destruct (proportion_ci_fields 350 1000 0.01 arm_350_1000 alpha_01)
    as (c99 & z99 & H99 & _).
  exists c95, c99. split; [exact H95 |]. split; [exact H99 |].
  exact (proportion_ci_nested 350 1000 c95 c99 H95 H99).
Defined.

End ReturnedWitnesses.

(** * The binary64 reading of the statistics functions

    The functions as Python runs them: counts are unbounded integers,
    every other number is an IEEE 754 binary64 float, [int / int] is the
    correctly rounded quotient, [float(int)] raises [OverflowError] beyond
    the float range, and [math.erf] and [math.log] come from the C
    library. It decides when a call returns and what it returns at a
    given input. *)

Module Binary64.

Local Open Scope string_scope.
Local Open Scope float_scope.

(** [math.erf] and [math.log], which are not part of the repository. *)
Class MathLib : Type := {
  erf : float -> float;
  log : float -> float
}.

Definition bind {A B : Type} (r : result A) (k : A -> result B) : result B :=
  match r with Ok a => k a | Raise e => Raise e end.

Notation "x <- r ;; k" := (bind r (fun x => k))
  (at level 61, r at next level, right associativity).

(** An integer as an unrounded binary number. *)
Definition int_sf (n : Z) : spec_float :=
  match n with
  | Z0 => S754_zero false
  | Zpos m => S754_finite false m 0
  | Zneg m => S754_finite true m 0
  end.

(** [float(n)], as in [x / n] for a float [x]: the nearest float, ties to
    even. *)
Definition float_of_int (n : Z) : result float :=
  match binary_normalize prec emax n 0 false with
  | S754_infinity _ => Raise (OverflowError "int too large to convert to float")
  | f => Ok (SF2Prim f)
  end.

(** [a / b] on two integers: the exact quotient rounded once. *)
Definition int_truediv (a b : Z) : result float :=
  if (b =? 0)%Z then Raise (ZeroDivisionError "division by zero")
  else
    match SFdiv prec emax (int_sf a) (int_sf b) with
    | S754_infinity _ =>
        Raise (OverflowError "integer division result too large for a float")
    | f => Ok (SF2Prim f)
    end.

(** [x / n] for a float [x] and an integer [n]. *)
Definition float_div_int (x : float) (n : Z) : result float :=
  if (n =? 0)%Z then Raise (ZeroDivisionError "float division by zero")
  else d <- float_of_int n ;; Ok (x / d).

(** [math.sqrt] *)
Definition math_sqrt (x : float) : result float :=
  if x <? 0 then Raise (ValueError "math domain error") else Ok (PrimFloat.sqrt x).

(** [max(0, x)] and [min(1, x)]: the first argument unless the second is
    strictly beyond it. *)
Definition max0 (x : float) : float := if 0 <? x then x else 0.
Definition min1 (x : float) : float := if x <? 1 then x else 1.

Module PT.
Record t : Type := {
  p_value : float;
  ci_low : float;
  ci_high : float;
  effect_abs : float;
  effect_rel : float
}.
End PT.

Module CI.
Record t : Type := {
  rate : float;
  ci_low : float;
  ci_high : float
}.
End CI.

Section WithMathLib.
Context {ML : MathLib}.

Definition rational_approx (p : float) : result float :=
  let c0 := 2.515517 in
  let c1 := 0.802853 in
  let c2 := 0.010328 in
  let d1 := 1.432788 in
  let d2 := 0.189269 in
  let d3 := 0.001308 in
  t <- math_sqrt (-2 * log p) ;;
  let z := t - (c0 + c1 * t + c2 * t * t)
               / (1 + d1 * t + d2 * t * t + d3 * t * t * t) in
  Ok (- z).

(** [_inverse_normal_cdf], with the depth of the recursion as fuel. *)
Fixpoint inverse_normal_cdf_fuel (fuel : nat) (p : float)
  : option (result float) :=
  match fuel with
  | O => None
  | S fuel' =>
    if (p <=? 0) || (1 <=? p) then
      Some (Raise (ValueError "Probability must be between 0 and 1 (exclusive)"))
    else if abs (p - 0.025) <? 1e-6 then Some (Ok (-1.96))
    else if abs (p - 0.005) <? 1e-6 then Some (Ok (-2.576))
    else if 0.5 <? p then
      match inverse_normal_cdf_fuel fuel' (1 - p) with
      | Some (Ok z) => Some (Ok (- z))
      | other => other
      end
    else Some (rational_approx p)
  end.

(** For [p > 0.5] the difference [1 - p] is below 0.5, so the recursion
    is one call deep. *)
Definition _inverse_normal_cdf (p : float) : result float :=
  match inverse_normal_cdf_fuel 2 p with
  | Some r => r
  | None => Raise (ValueError "recursion depth exceeded")
  end.

Definition z_critical (alpha : float) : result float :=
  if alpha =? 0.05 then Ok 1.96
  else z <- _inverse_normal_cdf (alpha / 2) ;; Ok (abs z).

Definition two_proportion_test
    (successes_a total_a successes_b total_b : Z) (alpha : float)
  : result PT.t :=
  if ((total_a <=? 0) || (total_b <=? 0))%Z then
    Raise (ValueError "Total observations must be positive")
  else if ((successes_a <? 0) || (successes_b <? 0))%Z then
    Raise (ValueError "Successes cannot be negative")
  else if ((successes_a >? total_a) || (successes_b >? total_b))%Z then
    Raise (ValueError "Successes cannot exceed total observations")
  else if negb ((0 <? alpha) && (alpha <? 1)) then
    Raise (ValueError "Alpha must be between 0 and 1")
  else
    p_a <- int_truediv successes_a total_a ;;
    p_b <- int_truediv successes_b total_b ;;
    let effect_abs := p_b - p_a in
    let effect_rel := if 0 <? p_a then (p_b - p_a) / p_a else infinity in
    p_pooled <-
      int_truediv (successes_a + successes_b) (total_a + total_b) ;;
    inv_a <- int_truediv 1 total_a ;;
    inv_b <- int_truediv 1 total_b ;;
    se_pooled <- math_sqrt (p_pooled * (1 - p_pooled) * (inv_a + inv_b)) ;;
    let z_stat := if 0 <? se_pooled then effect_abs / se_pooled else 0 in
    root2 <- math_sqrt 2 ;;
    let p_value := 2 * (1 - 0.5 * (1 + erf (abs z_stat / root2))) in
    var_a <- float_div_int (p_a * (1 - p_a)) total_a ;;
    var_b <- float_div_int (p_b * (1 - p_b)) total_b ;;
    se_unpooled <- math_sqrt (var_a + var_b) ;;
    z_crit <- z_critical alpha ;;
    let ci_low := effect_abs - z_crit * se_unpooled in
    let ci_high := effect_abs + z_crit * se_unpooled in
    Ok {| PT.p_value := p_value;
          PT.ci_low := ci_low;
          PT.ci_high := ci_high;
          PT.effect_abs := effect_abs;
          PT.effect_rel := effect_rel |}.

Definition proportion_ci (successes total : Z) (alpha : float)
  : result CI.t :=
  if (total <=? 0)%Z then
    Raise (ValueError "Total observations must be positive")
  else if (successes <? 0)%Z then
    Raise (ValueError "Successes cannot be negative")
  else if (successes >? total)%Z then
    Raise (ValueError "Successes cannot exceed total observations")
  else if negb ((0 <? alpha) && (alpha <? 1)) then
    Raise (ValueError "Alpha must be between 0 and 1")
  else
    rate <- int_truediv successes total ;;
    variance <- float_div_int (rate * (1 - rate)) total ;;
    se <- math_sqrt variance ;;
    z_crit <- z_critical alpha ;;
    let ci_low := max0 (rate - z_crit * se) in
    let ci_high := min1 (rate + z_crit * se) in
    Ok {| CI.rate := rate; CI.ci_low := ci_low; CI.ci_high := ci_high |}.

End WithMathLib.

(** The value of [math.erf] close to zero: for [2^-1015 <= |x| < 2^-28]
    the C library (fdlibm's [s_erf.c], which glibc follows) returns
    [x + efx * x]. Outside that range, and for [math.log], this instance
    answers NaN, so that a closed example which relied on it there would
    show NaN in its result. *)
Definition efx : float := 1.28379167095512586316e-01.

Definition erf_near_zero (x : float) : float :=
  if (0x1p-1015 <=? abs x) && (abs x <? 0x1p-28) then x + efx * x else nan.

Definition near_zero : MathLib :=
  {| erf := erf_near_zero; log := fun _ => nan |}.

(** The smallest positive float, 5e-324. *)
Definition min_subnormal : float := 0x1p-1074.

End Binary64.

Section Binary64Facts.

Import Binary64.
Local Open Scope string_scope.
Local Open Scope float_scope.

Definition tiny_alpha_error {A : Type} : result A :=
  Raise (ValueError "Probability must be between 0 and 1 (exclusive)").

Definition too_large_error {A : Type} : result A :=
  Raise (OverflowError "int too large to convert to float").

(** Halving the smallest positive float gives 0.0, which
    [_inverse_normal_cdf] refuses: whatever [math.erf] and [math.log]
    are, both functions raise at alpha = 5e-324, an alpha the validation
    accepts. *)
Lemma tiny_alpha_raises (ML : MathLib) :
  ((0 <? min_subnormal) && (min_subnormal <? 1) = true)
  /\ two_proportion_test 100 1000 120 1000 min_subnormal = tiny_alpha_error
  /\ two_proportion_test 120 1000 100 1000 min_subnormal = tiny_alpha_error
  /\ proportion_ci 350 1000 min_subnormal = tiny_alpha_error.
Proof. repeat split. Qed.

(** A total of 2^1024 does not convert to a float: whatever [math.erf]
    and [math.log] are, both functions raise [OverflowError] there. *)
Lemma huge_total_raises (ML : MathLib) :
  two_proportion_test 1 (2 ^ 1024) 1 4 0.05 = too_large_error
  /\ proportion_ci 1 (2 ^ 1024) 0.05 = too_large_error.
Proof. split; vm_compute; reflexivity. Qed.

(** The argument [math.erf] receives at (1, 4, 2^53 - 1, 2^55). *)
Definition erf_argument : float := 9.064933036736789e-17.

(** For every [math.erf] whose value there is below half an ulp of 1 (the
    error function is about 1.0229e-16 there, half an ulp is 1.11e-16),
    the test returns [p_value = 1.0] with [effect_abs = -2^-55]. *)
Lemma rounded_p_value (ML : MathLib) :
  1 + erf erf_argument = 1 ->
  exists r,
    two_proportion_test 1 4 (2 ^ 53 - 1) (2 ^ 55) 0.05 = Ok r
    /\ PT.p_value r = 1
    /\ PT.effect_abs r = -0x1p-55.
Proof.
  intros H. eexists. split; [vm_compute; reflexivity |]. split.
  - change (2 * (1 - 0.5 * (1 + erf erf_argument)) = 1).
    rewrite H. reflexivity.
  - reflexivity.
Qed.


(** C2, as stated, fails: at alpha = 5e-324, which the validation
    accepts, neither the call nor the call with the arms exchanged
    returns a result. *)
Lemma two_proportion_test_swap_no_result :
  ((0 <? min_subnormal) && (min_subnormal <? 1) = true)
  /\ @two_proportion_test near_zero 100 1000 120 1000 min_subnormal
     = tiny_alpha_error
  /\ @two_proportion_test near_zero 120 1000 100 1000 min_subnormal
     = tiny_alpha_error.
Proof. repeat split. Qed.

(** C3, as stated, fails: [proportion_ci] raises at alpha = 5e-324, and
    at a total of 2^1024, on input that its validation accepts. *)
Lemma proportion_ci_no_result :
  ((0 <? min_subnormal) && (min_subnormal <? 1) = true)
  /\ @proportion_ci near_zero 350 1000 min_subnormal = tiny_alpha_error
  /\ @proportion_ci near_zero 1 (2 ^ 1024) 0.05 = too_large_error.
Proof. repeat split; vm_compute; reflexivity. Qed.

(** At ordinary input the binary64 functions return what the code
    returns: scenario B of the specification. *)
Example proportion_ci_scenario_B :
  @proportion_ci near_zero 350 1000 0.05
  = Ok {| CI.rate := 0.34999999999999998;
          CI.ci_low := 0.32043711786716322;
          CI.ci_high := 0.37956288213283673 |}.
Proof. vm_compute. reflexivity. Qed.

End Binary64Facts.

(** * The grid run with its calls and the range of [datetime]

    [Sensitivity.run_sensitivity_grid] reads the loops as a function of
    what the collaborators answer. The reading below adds what the run
    does on the way: every call to [run_simulation], [build_warehouse]
    and [run_ccr_test] is recorded with the arguments the code passes, in
    order, and [base_date + timedelta(days=date_offset)] raises
    [OverflowError] when the day falls outside the range of [datetime],
    which ends the run with no result. *)

Module Logged.

Import Sensitivity.
Local Open Scope string_scope.
Local Open Scope Z_scope.

Inductive call : Type :=
| SimulationCall (date days users : Z) (uplift : Q) (seed output_dir : Z)
| WarehouseCall (data_dir db_path : Z)
| QueryCall (db_path date : Z).

(** A computation: the calls it made, and its value or the exception
    that ended it. *)
Definition io (A : Type) : Type := (list call * result A)%type.

Definition ret {A : Type} (a : A) : io A := ([], Ok a).

Definition bind {A B : Type} (m : io A) (k : A -> io B) : io B :=
  match m with
  | (l, Ok a) => ((l ++ fst (k a))%list, snd (k a))
  | (l, Raise e) => (l, Raise e)
  end.

Notation "x <~ m ;; k" := (bind m (fun x => k))
  (at level 61, m at next level, right associativity).

(** [for x in xs: s = body(s, x)] *)
Fixpoint for_each {A S : Type} (body : S -> A -> io S) (xs : list A) (s : S)
  : io S :=
  match xs with
  | [] => ret s
  | x :: xs' => s' <~ body s x ;; for_each body xs' s'
  end.

(** Days are proleptic Gregorian ordinals, as [date.toordinal] numbers
    them: day 1 is 0001-01-01 and day [max_ordinal] is 9999-12-31. *)
Definition max_ordinal : Z := 3652059.

Definition in_range (day : Z) : bool := (1 <=? day) && (day <=? max_ordinal).

Definition date_overflow {A : Type} : io A :=
  ([], Raise (OverflowError "date value out of range")).

(** [date + timedelta(days=days)]. The limit of [timedelta] itself,
    999999999 days, is not reached first: [date] is a day in range and
    the offsets the grid uses grow by one from 1. *)
Definition add_days (date days : Z) : io Z :=
  if in_range (date + days) then ret (date + days) else date_overflow.

Section WithCollaborators.
Context {EF : Stats.ErrorFunction}.
Variable run_simulation :
  forall (date days users : Z) (uplift : Q) (seed output_dir : Z), bool.
Variable build_warehouse : forall (data_dir db_path : Z), bool.
Variable warehouse_query : forall (db_path date : Z), query_outcome.

Definition call_run_simulation (date days users : Z) (uplift : Q)
    (seed output_dir : Z) : io bool :=
  ([SimulationCall date days users uplift seed output_dir],
   Ok (run_simulation date days users uplift seed output_dir)).

Definition call_build_warehouse (data_dir db_path : Z) : io bool :=
  ([WarehouseCall data_dir db_path], Ok (build_warehouse data_dir db_path)).

Definition call_run_ccr_test (db_path date : Z) (alpha : R) : io (bool * R) :=
  ([QueryCall db_path date],
   Ok (run_ccr_test (warehouse_query db_path date) alpha)).

(** The body of [for rep in range(repeats)] after [run_count += 1]. *)
Definition run_trial (base_date days users : Z) (uplift : Q) (seed : Z)
    (alpha : R) (run_count : Z) : io trial_end :=
  let date_offset := run_count in
  sim_date <~ add_days base_date date_offset ;;
  let data_dir := run_count in
  let db_path := run_count in
  let run_seed := seed + run_count in
  success <~ call_run_simulation sim_date days users uplift run_seed data_dir ;;
  if negb success then ret SimulationFailed
  else
    success <~ call_build_warehouse data_dir db_path ;;
    if negb success then ret WarehouseFailed
    else
      tested <~ call_run_ccr_test db_path sim_date alpha ;;
      ret (Tested (fst tested) (snd tested)).

(** One repeat: the state is [(run_count, detections)]. *)
Definition repeat_step (base_date days users : Z) (uplift : Q) (seed : Z)
    (alpha : R) (st : Z * Z) (rep : nat) : io (Z * Z) :=
  let run_count := fst st + 1 in
  let detections := snd st in
  outcome <~ run_trial base_date days users uplift seed alpha run_count ;;
  match outcome with
  | Tested true _ => ret (run_count, detections + 1)
  | _ => ret (run_count, detections)
  end.

(** One grid point: the state is [(run_count, results)]. *)
Definition point_step (base_date days repeats seed : Z) (alpha : R)
    (st : Z * list grid_result) (point : Z * Q) : io (Z * list grid_result) :=
  let users := fst point in
  let uplift := snd point in
  inner <~ for_each (repeat_step base_date days users uplift seed alpha)
             (seq 0 (Z.to_nat repeats)) (fst st, 0) ;;
  let detections := snd inner in
  let detection_rate :=
    if repeats >? 0 then (IZR detections / IZR repeats)%R else 0%R in
  ret (fst inner,
       (snd st ++
        [{| res_users_per_day := users;
            res_uplift := uplift;
            res_repeats := repeats;
            res_detections := detections;
            res_detection_rate := detection_rate;
            res_alpha := alpha |}])%list).

Definition run_sensitivity_grid (base_date days : Z)
    (users_list : list Z) (uplifts_list : list Q) (repeats seed : Z)
    (alpha : R) : io (list grid_result) :=
  let grid_points := list_prod users_list uplifts_list in
  final <~ for_each (point_step base_date days repeats seed alpha)
             grid_points (0, []) ;;
  ret (snd final).

End WithCollaborators.

(** The [(date, seed)] arguments of the calls to [run_simulation], in the
    order of the calls. *)
Definition simulation_calls (log : list call) : list (Z * Z) :=
  flat_map (fun c => match c with
                     | SimulationCall date _ _ _ seed _ => [(date, seed)]
                     | _ => []
                     end) log.

(** The dates [run_ccr_test] is called with. *)
Definition query_dates (log : list call) : list Z :=
  flat_map (fun c => match c with
                     | QueryCall _ date => [date]
                     | _ => []
                     end) log.

(** The number of the run a call belongs to: its directory or database. *)
Definition call_run (c : call) : Z :=
  match c with
  | SimulationCall _ _ _ _ _ output_dir => output_dir
  | WarehouseCall data_dir _ => data_dir
  | QueryCall db_path _ => db_path
  end.

End Logged.

(** ** What a grid run calls, and when it returns *)

Section LoggedFacts.

Import Sensitivity.
Local Open Scope Z_scope.
Context {EF : Stats.ErrorFunction}.
Variable run_simulation : Z -> Z -> Z -> Q -> Z -> Z -> bool.
Variable build_warehouse : Z -> Z -> bool.
Variable warehouse_query : Z -> Z -> query_outcome.
Variables (base_date days repeats seed : Z) (alpha : R).

Local Abbreviation pure_trial users uplift :=
  (Sensitivity.run_trial run_simulation build_warehouse warehouse_query
     base_date days users uplift seed alpha).
Local Abbreviation logged_trial users uplift :=
  (Logged.run_trial run_simulation build_warehouse warehouse_query
     base_date days users uplift seed alpha).
Local Abbreviation logged_repeat users uplift :=
  (Logged.repeat_step run_simulation build_warehouse warehouse_query
     base_date days users uplift seed alpha).
Local Abbreviation logged_point :=
  (Logged.point_step run_simulation build_warehouse warehouse_query
     base_date days repeats seed alpha).
Local Abbreviation count users uplift :=
  (detected_count run_simulation build_warehouse warehouse_query
     base_date days seed alpha users uplift).
Local Abbreviation trial_at users uplift :=
  (trial_of base_date seed users uplift).
Local Abbreviation closed_results :=
  (grid_results run_simulation build_warehouse warehouse_query
     base_date days repeats seed alpha).
Local Abbreviation closed_trace := (grid_trace base_date repeats seed).

(** The calls of a trial that starts: the simulation, then the warehouse
    build if the simulation succeeded, then the test if the build
    succeeded. *)
Definition calls_of_trial (t : trial) : list Logged.call :=
  Logged.SimulationCall (trial_date t) days (trial_users t) (trial_uplift t)
    (trial_seed t) (trial_run t)
  :: (if run_simulation (trial_date t) days (trial_users t) (trial_uplift t)
           (trial_seed t) (trial_run t)
      then Logged.WarehouseCall (trial_run t) (trial_run t)
           :: (if build_warehouse (trial_run t) (trial_run t)
               then [Logged.QueryCall (trial_run t) (trial_date t)]
               else [])
      else []).

Definition date_ok (t : trial) : bool := Logged.in_range (trial_date t).

(** The longest prefix whose elements all satisfy [f]. *)
Fixpoint take_while {A : Type} (f : A -> bool) (l : list A) : list A :=
  match l with
  | [] => []
  | x :: l' => if f x then x :: take_while f l' else []
  end.

Lemma take_while_app {A : Type} (f : A -> bool) (l1 l2 : list A) :
  take_while f (l1 ++ l2) =
  if forallb f l1 then (l1 ++ take_while f l2)%list else take_while f l1.
Proof.
  induction l1 as [| x l1 IH]; [reflexivity |].
  cbn [app take_while forallb]. destruct (f x); [| reflexivity].
  rewrite IH. cbn [andb]. now destruct (forallb f l1).
Qed.

Lemma take_while_all {A : Type} (f : A -> bool) (l : list A) :
  forallb f l = true -> take_while f l = l.
Proof.
  induction l as [| x l IH]; [reflexivity |].
  cbn [forallb take_while]. intros H. apply andb_true_iff in H.
  destruct H as [-> H]. now rewrite IH.
Qed.

Lemma take_while_incl {A : Type} (f : A -> bool) (l : list A) :
  incl (take_while f l) l.
Proof.
  induction l as [| x l IH]; [apply incl_refl |].
  cbn [take_while]. destruct (f x); [| apply incl_nil_l].
  apply incl_cons; [now left | now apply incl_tl].
Qed.

(** A prefix of the runs [rc + 1, ..., rc + n] is [rc + 1, ..., rc + m]. *)
Lemma take_while_runs (f : Z -> bool) (n : nat) (rc : Z) :
  exists m, (m <= n)%nat
            /\ take_while f (runs_from rc n) = runs_from rc m
            /\ (forallb f (runs_from rc n) = true -> m = n).
Proof.
  revert rc. induction n as [| n IH]; intros rc.
  - exists 0%nat. repeat split. lia.
  - rewrite runs_from_S. cbn [take_while forallb].
    destruct (f (rc + 1)).
    + destruct (IH (rc + 1)) as (m & Hm & Ht & Hall).
      exists (S m). rewrite runs_from_S, Ht. repeat split; [lia |].
      intros H. f_equal. now apply Hall.
    + exists 0%nat. repeat split; [lia | discriminate].
Qed.

Lemma take_while_map {A B : Type} (f : B -> bool) (g : A -> B) (l : list A) :
  take_while f (map g l) = map g (take_while (fun a => f (g a)) l).
Proof.
  induction l as [| x l IH]; [reflexivity |].
  cbn [map take_while]. destruct (f (g x)); [| reflexivity].
  cbn [map]. now rewrite IH.
Qed.

Lemma forallb_map {A B : Type} (f : B -> bool) (g : A -> B) (l : list A) :
  forallb f (map g l) = forallb (fun a => f (g a)) l.
Proof.
  induction l as [| x l IH]; [reflexivity |].
  cbn [map forallb]. now rewrite IH.
Qed.

(** A trial whose date is in range makes its calls and ends as the
    reading without calls says; a trial whose date is not raises before
    any call. *)
Lemma run_trial_logged (users : Z) (uplift : Q) (k : Z) :
  logged_trial users uplift k =
  if date_ok (trial_at users uplift k)
  then (calls_of_trial (trial_at users uplift k), Ok (pure_trial users uplift k))
  else Logged.date_overflow.
Proof.
  unfold Logged.run_trial, Logged.add_days, Sensitivity.run_trial, date_ok,
    calls_of_trial.
  cbn [trial_of trial_date trial_seed trial_run trial_users trial_uplift].
  destruct (Logged.in_range (base_date + k)); [| reflexivity].
  unfold Logged.call_run_simulation, Logged.call_build_warehouse,
    Logged.call_run_ccr_test, Logged.ret, Logged.bind.
  cbn [fst snd app].
  destruct (run_simulation (base_date + k) days users uplift (seed + k) k);
    cbn [negb fst snd app]; [| reflexivity].
  destruct (build_warehouse k k); cbn [negb fst snd app]; [| reflexivity].
  destruct (run_ccr_test (warehouse_query k (base_date + k)) alpha) as [d p].
  reflexivity.
Qed.

Lemma repeat_step_logged (users : Z) (uplift : Q) (rc det : Z) (rep : nat) :
  logged_repeat users uplift (rc, det) rep =
  if date_ok (trial_at users uplift (rc + 1))
  then (calls_of_trial (trial_at users uplift (rc + 1)),
        Ok (rc + 1, det + count users uplift [rc + 1]))
  else Logged.date_overflow.
Proof.
  unfold Logged.repeat_step. cbn [fst snd]. rewrite run_trial_logged.
  destruct (date_ok (trial_at users uplift (rc + 1))); [| reflexivity].
  pose proof (run_trial_detected run_simulation build_warehouse
                warehouse_query base_date days seed alpha users uplift
                (rc + 1)) as H.
  unfold Logged.bind, Logged.ret, detected_count, len. cbn [filter].
  destruct (pure_trial users uplift (rc + 1)) as [| | [] p];
    rewrite H; cbn [fst snd List.length Z.of_nat]; rewrite app_nil_r;
    rewrite ?Z.add_0_r; reflexivity.
Qed.

(** The inner loop in closed form. *)
Lemma inner_loop_logged (users : Z) (uplift : Q) (n a : nat) (rc det : Z) :
  Logged.for_each (logged_repeat users uplift) (seq a n) (rc, det) =
  (flat_map calls_of_trial
     (take_while date_ok (map (trial_at users uplift) (runs_from rc n))),
   if forallb date_ok (map (trial_at users uplift) (runs_from rc n))
   then Ok (rc + Z.of_nat n, det + count users uplift (runs_from rc n))
   else Raise (OverflowError "date value out of range")).
Proof.
  revert a rc det. induction n as [| n IH]; intros a rc det.
  - cbn. unfold Logged.ret, detected_count, len. cbn.
    now rewrite !Z.add_0_r.
  - rewrite runs_from_S.
    cbn [seq Logged.for_each map take_while forallb flat_map].
    rewrite repeat_step_logged.
    rewrite (detected_count_cons run_simulation build_warehouse
               warehouse_query base_date days seed alpha users uplift
               (rc + 1) (runs_from (rc + 1) n)).
    destruct (date_ok (trial_at users uplift (rc + 1))); [| reflexivity].
    unfold Logged.bind. rewrite IH. cbn [fst snd andb flat_map].
    f_equal.
    destruct (forallb date_ok
                (map (trial_at users uplift) (runs_from (rc + 1) n)));
      [| reflexivity].
    rewrite Nat2Z.inj_succ. do 2 f_equal; lia.
Qed.

Lemma point_step_logged (rc : Z) (rs : list grid_result) (point : Z * Q) :
  logged_point (rc, rs) point =
  (flat_map calls_of_trial
     (take_while date_ok
        (map (trial_at (fst point) (snd point))
             (runs_from rc (Z.to_nat repeats)))),
   if forallb date_ok
        (map (trial_at (fst point) (snd point))
             (runs_from rc (Z.to_nat repeats)))
   then Ok (rc + Z.of_nat (Z.to_nat repeats),
            (rs ++ [point_result run_simulation build_warehouse
                      warehouse_query base_date days repeats seed alpha
                      rc point])%list)
   else Raise (OverflowError "date value out of range")).
Proof.
  unfold Logged.point_step. cbn [fst snd]. rewrite inner_loop_logged.
  unfold Logged.bind, Logged.ret.
  destruct (forallb date_ok
              (map (trial_at (fst point) (snd point))
                   (runs_from rc (Z.to_nat repeats)))); [| reflexivity].
  cbn [fst snd]. rewrite app_nil_r. unfold point_result.
  rewrite Z.add_0_l. reflexivity.
Qed.

(** The outer loop in closed form: the calls are those of the trials of
    the trace up to the first date out of range, and the loop ends
    normally when there is none. *)
Lemma outer_loop_logged (points : list (Z * Q)) (rc : Z)
    (rs : list grid_result) :
  Logged.for_each logged_point points (rc, rs) =
  (flat_map calls_of_trial (take_while date_ok (closed_trace rc points)),
   if forallb date_ok (closed_trace rc points)
   then Ok (rc + Z.of_nat (List.length points * Z.to_nat repeats),
            (rs ++ closed_results rc points)%list)
   else Raise (OverflowError "date value out of range")).
Proof.
  revert rc rs. induction points as [| p ps IH]; intros rc rs.
  - cbn. unfold Logged.ret. now rewrite Z.add_0_r, app_nil_r.
  - cbn [Logged.for_each grid_trace grid_results List.length].
    rewrite point_step_logged, take_while_app, forallb_app.
    destruct (forallb date_ok
                (map (trial_at (fst p) (snd p))
                     (runs_from rc (Z.to_nat repeats)))) eqn:Hall;
      [| reflexivity].
    unfold Logged.bind. rewrite IH. cbn [fst snd andb].
    rewrite flat_map_app, (take_while_all _ _ Hall). f_equal.
    destruct (forallb date_ok
                (closed_trace (rc + Z.of_nat (Z.to_nat repeats)) ps));
      [| reflexivity].
    rewrite <- app_assoc. cbn [app]. do 2 f_equal. lia.
Qed.


Local Abbreviation logged_run users_list uplifts_list :=
  (Logged.run_sensitivity_grid run_simulation build_warehouse warehouse_query
     base_date days users_list uplifts_list repeats seed alpha).
Local Abbreviation pure_run users_list uplifts_list :=
  (Sensitivity.run_sensitivity_grid run_simulation build_warehouse
     warehouse_query base_date days users_list uplifts_list repeats seed alpha).

(** The whole run: its calls are those of the trials of the trace, in
    order, up to the first trial whose date is out of range; it returns
    the records of the reading without calls when no date is out of
    range, and raises otherwise. *)
Lemma run_logged (users_list : list Z) (uplifts_list : list Q) :
  logged_run users_list uplifts_list =
  (flat_map calls_of_trial
     (take_while date_ok (closed_trace 0 (list_prod users_list uplifts_list))),
   if forallb date_ok (closed_trace 0 (list_prod users_list uplifts_list))
   then Ok (pure_run users_list uplifts_list)
   else Raise (OverflowError "date value out of range")).
Proof.
  unfold Logged.run_sensitivity_grid. rewrite outer_loop_logged.
  unfold Logged.bind, Logged.ret.
  destruct (forallb date_ok (closed_trace 0 (list_prod users_list uplifts_list)));
    [| reflexivity].
  cbn [fst snd app]. rewrite app_nil_r. do 2 f_equal.
  unfold Sensitivity.run_sensitivity_grid. symmetry.
  apply (grid_run_closed run_simulation build_warehouse warehouse_query
           base_date days repeats seed alpha users_list uplifts_list).
Qed.

(** The day of run [k] is in range. *)
Definition run_ok (k : Z) : bool := Logged.in_range (base_date + k).

Lemma take_while_ext_in {A : Type} (f g : A -> bool) (l : list A) :
  Forall (fun x => f x = g x) l -> take_while f l = take_while g l.
Proof.
  intros H. induction H as [| x l Hx _ IH]; [reflexivity |].
  cbn [take_while]. now rewrite Hx, IH.
Qed.

Lemma forallb_ext_in {A : Type} (f g : A -> bool) (l : list A) :
  Forall (fun x => f x = g x) l -> forallb f l = forallb g l.
Proof.
  intros H. induction H as [| x l Hx _ IH]; [reflexivity |].
  cbn [forallb]. now rewrite Hx, IH.
Qed.

Lemma date_ok_run (points : list (Z * Q)) (rc : Z) :
  Forall (fun t => date_ok t = run_ok (trial_run t)) (closed_trace rc points).
Proof.
  eapply Forall_impl; [| apply (grid_trace_fields base_date repeats seed)].
  intros t [_ Hd]. unfold date_ok, run_ok. now rewrite Hd.
Qed.

(** The trials that start. *)
Definition started (points : list (Z * Q)) : list trial :=
  take_while date_ok (closed_trace 0 points).

Lemma started_fields (points : list (Z * Q)) :
  Forall (fun t => trial_seed t = seed + trial_run t
                   /\ trial_date t = base_date + trial_run t)
         (started points).
Proof.
  apply Forall_forall. intros t Ht. apply take_while_incl in Ht.
  pose proof (grid_trace_fields base_date repeats seed points 0) as H.
  rewrite Forall_forall in H. now apply H.
Qed.

Lemma started_runs (points : list (Z * Q)) :
  exists n, (n <= List.length points * Z.to_nat repeats)%nat
            /\ map trial_run (started points) = runs_from 0 n
            /\ (forallb date_ok (closed_trace 0 points) = true ->
                n = (List.length points * Z.to_nat repeats)%nat).
Proof.
  unfold started.
  rewrite (take_while_ext_in _ _ _ (date_ok_run points 0)).
  rewrite (forallb_ext_in _ _ _ (date_ok_run points 0)).
  rewrite <- (take_while_map run_ok trial_run), <- (forallb_map run_ok trial_run).
  rewrite (grid_trace_runs base_date repeats seed).
  apply take_while_runs.
Qed.

Lemma simulation_calls_trials (ts : list trial) :
  Logged.simulation_calls (flat_map calls_of_trial ts)
  = map (fun t => (trial_date t, trial_seed t)) ts.
Proof.
  unfold Logged.simulation_calls.
  induction ts as [| t ts IH]; [reflexivity |].
  cbn [flat_map map]. rewrite flat_map_app, IH. unfold calls_of_trial.
  destruct (run_simulation _ _ _ _ _ _); [| reflexivity].
  destruct (build_warehouse _ _); reflexivity.
Qed.

(** The trial reaches the test. *)
Definition reaches_test (t : trial) : bool :=
  run_simulation (trial_date t) days (trial_users t) (trial_uplift t)
    (trial_seed t) (trial_run t)
  && build_warehouse (trial_run t) (trial_run t).

Lemma query_dates_trials (ts : list trial) :
  Logged.query_dates (flat_map calls_of_trial ts)
  = map trial_date (filter reaches_test ts).
Proof.
  unfold Logged.query_dates.
  induction ts as [| t ts IH]; [reflexivity |].
  cbn [flat_map filter]. rewrite flat_map_app, IH.
  unfold calls_of_trial, reaches_test.
  destruct (run_simulation _ _ _ _ _ _); [| reflexivity].
  destruct (build_warehouse _ _); reflexivity.
Qed.

Lemma NoDup_map_filter {A B : Type} (f : A -> B) (g : A -> bool) (l : list A) :
  NoDup (map f l) -> NoDup (map f (filter g l)).
Proof.
  induction l as [| x l IH]; [intros _; constructor |].
  cbn [map filter]. intros H. inversion H as [| ? ? Hin Hnd]; subst.
  destruct (g x); [| now apply IH].
  cbn [map]. constructor; [| now apply IH].
  intros Hc. apply Hin. apply in_map_iff in Hc.
  destruct Hc as (y & Hy & Hf). apply filter_In in Hf.
  apply in_map_iff. exists y. now split; [| apply Hf].
Qed.

Lemma started_calls (points : list (Z * Q)) :
  exists n, (n <= List.length points * Z.to_nat repeats)%nat
            /\ map (fun t => (trial_date t, trial_seed t)) (started points)
               = map (fun k => (base_date + k, seed + k)) (runs_from 0 n)
            /\ (forallb date_ok (closed_trace 0 points) = true ->
                n = (List.length points * Z.to_nat repeats)%nat).
Proof.
  destruct (started_runs points) as (n & Hn & Hruns & Hall).
  exists n. split; [assumption |]. split; [| assumption].
  rewrite <- Hruns, map_map. apply map_ext_in. intros t Ht.
  pose proof (started_fields points) as Hf. rewrite Forall_forall in Hf.
  destruct (Hf t Ht) as [-> ->]. reflexivity.
Qed.

Lemma in_range_runs (n : nat) :
  1 <= base_date -> base_date + Z.of_nat n <= Logged.max_ordinal ->
  forallb run_ok (runs_from 0 n) = true.
Proof.
  intros Hlo Hhi. apply forallb_forall. intros k Hk.
  apply runs_from_bounds in Hk. unfold run_ok, Logged.in_range.
  apply andb_true_iff. split; [apply Z.leb_le | apply Z.leb_le]; lia.
Qed.

(** With every date in range the run returns what the reading without
    calls returns. *)
Lemma run_logged_returns (users_list : list Z) (uplifts_list : list Q) :
  1 <= base_date ->
  base_date + len users_list * len uplifts_list * Z.max 0 repeats
    <= Logged.max_ordinal ->
  snd (logged_run users_list uplifts_list) = Ok (pure_run users_list uplifts_list).
Proof.
  intros Hlo Hhi. rewrite run_logged. cbn [snd].
  rewrite (forallb_ext_in _ _ _ (date_ok_run _ 0)).
  rewrite <- (forallb_map run_ok trial_run).
  rewrite (grid_trace_runs base_date repeats seed).
  rewrite in_range_runs; [reflexivity | assumption |].
  rewrite length_prod. unfold len in Hhi. lia.
Qed.

(** C8: the calls to [run_simulation] of one grid run are, in order,
    those of the trials numbered 1, 2, ..., n by the run counter, across
    all grid points, where n is the number of trials of the grid when the
    run returns (a run that a date beyond the range of [datetime] ends
    makes fewer); trial number k is simulated with the date
    [base_date + k] days and the seed [seed + k]. So no two trials of a
    run are simulated with the same seed or the same date, and the dates
    passed to [run_ccr_test] are dates of these trials, none of them
    twice. *)
Theorem grid_calls_distinct :
  forall (users_list : list Z) (uplifts_list : list Q),
    let run := Logged.run_sensitivity_grid run_simulation build_warehouse
                 warehouse_query base_date days users_list uplifts_list
                 repeats seed alpha in
    let trials := Logged.simulation_calls (fst run) in
    (exists n : nat,
        (n <= List.length (list_prod users_list uplifts_list)
              * Z.to_nat repeats)%nat
        /\ trials = map (fun k => (base_date + k, seed + k)) (runs_from 0 n)
        /\ (forall rs, snd run = Ok rs ->
            n = (List.length (list_prod users_list uplifts_list)
                 * Z.to_nat repeats)%nat))
    /\ NoDup (map snd trials)
    /\ NoDup (map fst trials)
    /\ NoDup (Logged.query_dates (fst run))
    /\ incl (Logged.query_dates (fst run)) (map fst trials).
Proof.
  intros users_list uplifts_list run trials.
  set (points := list_prod users_list uplifts_list).
  assert (Hcalls : fst run = flat_map calls_of_trial (started points)).
  { unfold run. rewrite run_logged. reflexivity. }
  assert (Hend : forall rs, snd run = Ok rs ->
                 forallb date_ok (closed_trace 0 points) = true).
  { intros rs. unfold run. rewrite run_logged. cbn [snd]. fold points.
    destruct (forallb date_ok (closed_trace 0 points));
      [reflexivity | discriminate]. }
  destruct (started_calls points) as (n & Hn & Hsim & Hall).
  assert (Htrials : trials
                    = map (fun k => (base_date + k, seed + k)) (runs_from 0 n)).
  { unfold trials. now rewrite Hcalls, simulation_calls_trials. }
  assert (Hseeds : NoDup (map snd trials)).
  { rewrite Htrials, map_map. cbn [snd].
    apply Injective_map_NoDup; [| apply runs_from_NoDup].
    intros x y Hxy. lia. }
  assert (Hdates : NoDup (map fst trials)).
  { rewrite Htrials, map_map. cbn [fst].
    apply Injective_map_NoDup; [| apply runs_from_NoDup].
    intros x y Hxy. lia. }
  assert (Hfst : map fst trials = map trial_date (started points)).
  { unfold trials. rewrite Hcalls, simulation_calls_trials, map_map.
    reflexivity. }
  split; [| split; [assumption | split; [assumption | split]]].
  - exists n. split; [assumption |]. split; [assumption |].
    intros rs Hrs. apply Hall. now apply (Hend rs).
  - rewrite Hcalls, query_dates_trials. apply NoDup_map_filter.
    now rewrite <- Hfst.
  - rewrite Hcalls, query_dates_trials, Hfst.
    intros d Hd. apply in_map_iff in Hd. destruct Hd as (t & Ht & Hf).
    apply filter_In in Hf. apply in_map_iff. exists t. now split; [| apply Hf].
Qed.

(** When the last day of the run, [base_date] plus the number of trials,
    is not beyond 9999-12-31, [run_sensitivity_grid] returns one record
    per grid point, in the order of the grid (users outermost, uplifts
    innermost), each carrying the configured [repeats] and [alpha],
    however the trials end. *)
Theorem grid_one_record_per_point :
  forall (users_list : list Z) (uplifts_list : list Q),
    1 <= base_date ->
    base_date + len users_list * len uplifts_list * Z.max 0 repeats
      <= Logged.max_ordinal ->
    exists rs,
      snd (Logged.run_sensitivity_grid run_simulation build_warehouse
             warehouse_query base_date days users_list uplifts_list
             repeats seed alpha) = Ok rs
      /\ map res_point rs = list_prod users_list uplifts_list
      /\ Forall (fun r => res_repeats r = repeats /\ res_alpha r = alpha) rs
      /\ len rs = len users_list * len uplifts_list.
Proof.
  intros users_list uplifts_list Hlo Hhi.
  exists (pure_run users_list uplifts_list).
  split; [now apply run_logged_returns |].
  unfold Sensitivity.run_sensitivity_grid.
  destruct (grid_run_closed run_simulation build_warehouse warehouse_query
              base_date days repeats seed alpha users_list uplifts_list)
    as [-> _].
  destruct (grid_results_points run_simulation build_warehouse warehouse_query
              base_date days repeats seed alpha
              (list_prod users_list uplifts_list) 0) as [Hp Hf].
  split; [assumption |]. split; [assumption |].
  apply (f_equal (@List.length _)) in Hp.
  rewrite length_map, length_prod in Hp. unfold len. rewrite Hp. lia.
Qed.

(** With [repeats <= 0] the run makes no call at all and still returns
    one record per grid point, in grid order, each with no detection and
    rate 0.0. *)
Theorem grid_nonpositive_repeats :
  forall (users_list : list Z) (uplifts_list : list Q),
    repeats <= 0 ->
    exists rs,
      Logged.run_sensitivity_grid run_simulation build_warehouse
        warehouse_query base_date days users_list uplifts_list
        repeats seed alpha = ([], Ok rs)
      /\ map res_point rs = list_prod users_list uplifts_list
      /\ Forall (fun r => res_detections r = 0 /\ res_detection_rate r = 0%R)
                rs.
Proof.
  intros users_list uplifts_list Hrep.
  exists (pure_run users_list uplifts_list).
  rewrite run_logged.
  rewrite (grid_trace_no_repeats base_date repeats seed _ _ Hrep).
  split; [reflexivity |].
  unfold Sensitivity.run_sensitivity_grid.
  destruct (grid_run_closed run_simulation build_warehouse warehouse_query
              base_date days repeats seed alpha users_list uplifts_list)
    as [-> _].
  split.
  - apply grid_results_points.
  - now apply grid_results_no_repeats.
Qed.

(** The metadata record agrees with the run it describes: whenever the
    run returns, its grid size is the number of records returned, the
    number of simulations run is the grid size times [max(repeats, 0)],
    and for [repeats >= 0] that is its total trial count. *)
Theorem metadata_matches_run :
  forall (utcnow : string) (git_hash : option string)
         (users_list : list Z) (uplifts_list : list Q) (target : option R)
         (rs : list grid_result),
    snd (Logged.run_sensitivity_grid run_simulation build_warehouse
           warehouse_query base_date days users_list uplifts_list
           repeats seed alpha) = Ok rs ->
    let m := create_metadata utcnow git_hash users_list uplifts_list
               repeats alpha target in
    let simulations :=
      Logged.simulation_calls
        (fst (Logged.run_sensitivity_grid run_simulation build_warehouse
                warehouse_query base_date days users_list uplifts_list
                repeats seed alpha)) in
    grid_size m = len rs
    /\ len simulations = grid_size m * Z.max 0 repeats
    /\ (0 <= repeats -> total_simulations m = len simulations).
Proof.
  intros utcnow git_hash users_list uplifts_list target rs Hrs m simulations.
  set (points := list_prod users_list uplifts_list).
  assert (Hall : forallb date_ok (closed_trace 0 points) = true).
  { revert Hrs. rewrite run_logged. cbn [snd]. fold points.
    destruct (forallb date_ok (closed_trace 0 points));
      [reflexivity | discriminate]. }
  assert (Hpure : rs = pure_run users_list uplifts_list).
  { revert Hrs. rewrite run_logged. cbn [snd]. fold points. rewrite Hall.
    congruence. }
  assert (Hlen : len rs = len users_list * len uplifts_list).
  { rewrite Hpure. unfold Sensitivity.run_sensitivity_grid.
    destruct (grid_run_closed run_simulation build_warehouse warehouse_query
                base_date days repeats seed alpha users_list uplifts_list)
      as [-> _].
    destruct (grid_results_points run_simulation build_warehouse
                warehouse_query base_date days repeats seed alpha
                (list_prod users_list uplifts_list) 0) as [Hp _].
    apply (f_equal (@List.length _)) in Hp.
    rewrite length_map, length_prod in Hp. unfold len. rewrite Hp. lia. }
  assert (Hsim : len simulations
                 = len users_list * len uplifts_list * Z.max 0 repeats).
  { unfold simulations. rewrite run_logged. cbn [fst]. fold points.
    rewrite simulation_calls_trials. unfold len. rewrite length_map.
    rewrite (take_while_all _ _ Hall).
    pose proof (grid_trace_runs base_date repeats seed points 0) as Hruns.
    apply (f_equal (@List.length _)) in Hruns.
    rewrite length_map in Hruns. unfold runs_from in Hruns.
    rewrite length_map, length_seq in Hruns. rewrite Hruns.
    unfold points. rewrite length_prod. lia. }
  unfold m, create_metadata. cbn [grid_size total_simulations].
  split; [now rewrite Hlen |]. split; [exact Hsim |].
  intros Hrep. rewrite Hsim, Z.max_r by assumption. reflexivity.
Qed.

End LoggedFacts.

(** ** Closed examples of the run with its calls *)

(** A 2 x 2 grid of 20 repeats from 2025-02-01 (day 739283). *)
Definition example_run : Logged.io (list Sensitivity.grid_result) :=
  @Logged.run_sensitivity_grid ratio_erf odd_seed_simulation build_ok
    tied_query 739283 1 [1000; 2000]%Z [0%Q; (2 # 100)%Q] 20 7 0.05.

Definition example_metadata : Sensitivity.metadata :=
  Sensitivity.create_metadata "2025-02-01T00:00:00" None
    [1000; 2000]%Z [0%Q; (2 # 100)%Q] 20 0.05 None.

Lemma example_run_returns :
  snd example_run
  = Ok (@Sensitivity.run_sensitivity_grid ratio_erf odd_seed_simulation
          build_ok tied_query 739283 1 [1000; 2000]%Z [0%Q; (2 # 100)%Q]
          20 7 0.05).
Proof.
  apply (@run_logged_returns ratio_erf odd_seed_simulation build_ok tied_query
           739283 1 20 7 0.05 [1000; 2000]%Z [0%Q; (2 # 100)%Q]).
  - lia.
  - unfold Logged.max_ordinal, Sensitivity.len. simpl. lia.
Qed.

Lemma grid_one_record_per_point_witness :
  exists rs,
    snd example_run = Ok rs
    /\ map res_point rs = list_prod [1000; 2000]%Z [0%Q; (2 # 100)%Q]
    /\ Forall (fun r => Sensitivity.res_repeats r = 20%Z
                        /\ Sensitivity.res_alpha r = 0.05%R) rs
    /\ Sensitivity.len rs
       = (Sensitivity.len [1000; 2000]%Z
          * Sensitivity.len [0%Q; (2 # 100)%Q])%Z.
Proof.
  apply (@grid_one_record_per_point ratio_erf odd_seed_simulation build_ok
           tied_query 739283 1 20 7 0.05 [1000; 2000]%Z [0%Q; (2 # 100)%Q]).
  - lia.
  - unfold Logged.max_ordinal, Sensitivity.len. simpl. lia.
Defined.

Lemma grid_nonpositive_repeats_witness :
  exists rs,
    @Logged.run_sensitivity_grid ratio_erf odd_seed_simulation build_ok
      tied_query 739283 1 [1000; 2000]%Z [0%Q] 0 7 0.05 = ([], Ok rs)
    /\ map res_point rs = list_prod [1000; 2000]%Z [0%Q]
    /\ Forall (fun r => Sensitivity.res_detections r = 0%Z
                        /\ Sensitivity.res_detection_rate r = 0%R) rs.
Proof.
  apply (@grid_nonpositive_repeats ratio_erf odd_seed_simulation build_ok
           tied_query 739283 1 0 7 0.05 [1000; 2000]%Z [0%Q]).
  lia.
Defined.

Lemma metadata_matches_run_witness :
  exists rs,
    snd example_run = Ok rs
    /\ Sensitivity.grid_size example_metadata = Sensitivity.len rs
    /\ Sensitivity.len (Logged.simulation_calls (fst example_run))
       = (Sensitivity.grid_size example_metadata * Z.max 0 20)%Z
    /\ Sensitivity.total_simulations example_metadata
       = Sensitivity.len (Logged.simulation_calls (fst example_run)).
Proof.
  eexists. split; [exact example_run_returns |].
  destruct (@metadata_matches_run ratio_erf odd_seed_simulation build_ok
              tied_query 739283 1 20 7 0.05 "2025-02-01T00:00:00" None
              [1000; 2000]%Z [0%Q; (2 # 100)%Q] None _ example_run_returns)
    as (Hsize & Hcalls & Htotal).
  split; [exact Hsize |]. split; [exact Hcalls |].
  apply Htotal. lia.
Defined.

(** A 2 x 2 grid with two repeats, base seed 7, every simulation failing:
    eight calls to [run_simulation], with eight consecutive dates and the
    seeds 8 to 15, no other call, and four records. *)
Example grid_calls_2x2 :
  let run := @Logged.run_sensitivity_grid ratio_erf failing_simulation
               build_ok tied_query 739283 1 [1000; 2000]%Z
               [0%Q; (2 # 100)%Q] 2 7 0.05 in
  Logged.simulation_calls (fst run)
  = [(739284, 8); (739285, 9); (739286, 10); (739287, 11);
     (739288, 12); (739289, 13); (739290, 14); (739291, 15)]%Z
  /\ map Logged.call_run (fst run) = [1; 2; 3; 4; 5; 6; 7; 8]%Z
  /\ Logged.query_dates (fst run) = []
  /\ exists rs, snd run = Ok rs
                /\ map Sensitivity.res_detections rs = [0; 0; 0; 0]%Z.
Proof.
  cbv zeta. repeat split. eexists. split; reflexivity.
Qed.

(** One grid point of three repeats from 9999-12-29 (day 3652057): the
    first two trials are simulated, the date of the third is beyond
    9999-12-31, and the run raises without returning a record. *)
Example grid_run_past_last_day :
  @Logged.run_sensitivity_grid ratio_erf failing_simulation build_ok
    tied_query 3652057 1 [1000%Z] [0%Q] 3 7 0.05
  = ([Logged.SimulationCall 3652058 1 1000 0 8 1;
      Logged.SimulationCall 3652059 1 1000 0 9 2],
     Raise (OverflowError "date value out of range")).
Proof. reflexivity. Qed.
